(** * My Land: crop yield dashboard

    A shallow embedding of the Python sources [app.py], [utils/model.py],
    [model.py] and [data/states_data.py], and the properties of the
    historical lookup, the estimate path, the comparison metrics and the
    advisory functions.

    Conventions.
    - Python numbers ([int] and [float]) are exact rationals [Q]; rounding
      of floats is not modelled.  What is stated of quotients, products and
      differences is limited to what rounding preserves: which branch is
      taken, signs, and comparisons with the operands themselves.
    - The static string-keyed tables are finite maps ([gmap string _]);
      Python objects that travel through the model artifact are [value]s,
      whose dictionaries keep their insertion order.
    - Code that can raise returns in [M], a state-and-exception monad over
      the process state. *)

From Stdlib Require Import QArith Lqa.
From stdpp Require Import gmap strings list fin_maps.

Set Warnings "-register-all".

Open Scope Q_scope.
Open Scope string_scope.
Open Scope list_scope.

(** ** Python dictionaries used as static tables *)

(** [d.get(k, dflt)]: never raises. *)
Definition dict_get {V} (d : gmap string V) (k : string) (dflt : V) : V :=
  default dflt (d !! k).

(** [k in d] *)
Definition dict_mem {V} (d : gmap string V) (k : string) : bool :=
  match d !! k with Some _ => true | None => false end.

(** ** data/states_data.py *)

Definition INDIAN_STATES : gmap string string :=
  list_to_map
    [("Andhra Pradesh", "AP"); ("Arunachal Pradesh", "AR"); ("Assam", "AS");
     ("Bihar", "BR"); ("Chhattisgarh", "CG"); ("Goa", "GA"); ("Gujarat", "GJ");
     ("Haryana", "HR"); ("Himachal Pradesh", "HP"); ("Jharkhand", "JH");
     ("Karnataka", "KA"); ("Kerala", "KL"); ("Madhya Pradesh", "MP");
     ("Maharashtra", "MH"); ("Manipur", "MN"); ("Meghalaya", "ML");
     ("Mizoram", "MZ"); ("Nagaland", "NL"); ("Odisha", "OR"); ("Punjab", "PB");
     ("Rajasthan", "RJ"); ("Sikkim", "SK"); ("Tamil Nadu", "TN");
     ("Telangana", "TG"); ("Tripura", "TR"); ("Uttar Pradesh", "UP");
     ("Uttarakhand", "UK"); ("West Bengal", "WB");
     ("Andaman and Nicobar Islands", "AN"); ("Chandigarh", "CH");
     ("Dadra and Nagar Haveli and Daman and Diu", "DN"); ("Delhi", "DL");
     ("Jammu and Kashmir", "JK"); ("Ladakh", "LA"); ("Lakshadweep", "LD");
     ("Puducherry", "PY")].

Definition CROP_TYPES : list string :=
  ["Rice"; "Wheat"; "Maize"; "Cotton"; "Sugarcane"; "Soybean"; "Groundnut";
   "Pulses"; "Mustard"; "Sunflower"; "Barley"; "Jowar"; "Bajra"; "Ragi";
   "Turmeric"; "Chili"; "Onion"; "Potato"; "Tomato"; "Banana"].

(** ** app.py: the historical reference *)

Record historical_result := {
  historical_yield : Q;
  data_source : string;
  reliability : Q
}.

(** Historical average yields by state and crop (kg/ha). *)
Definition historical_data : gmap string (gmap string Q) :=
  list_to_map
    [("Punjab", list_to_map
        [("Rice", 4200); ("Wheat", 4800); ("Maize", 3800); ("Cotton", 1800)]);
     ("Haryana", list_to_map
        [("Rice", 3900); ("Wheat", 4600); ("Maize", 3600); ("Cotton", 1700)]);
     ("Uttar Pradesh", list_to_map
        [("Rice", 2400); ("Wheat", 3200); ("Sugarcane", 68000); ("Potato", 22000)]);
     ("Maharashtra", list_to_map
        [("Cotton", 1200); ("Sugarcane", 78000); ("Soybean", 1800); ("Rice", 2800)]);
     ("Karnataka", list_to_map
        [("Rice", 3200); ("Cotton", 1400); ("Sugarcane", 82000); ("Maize", 4500)]);
     ("Tamil Nadu", list_to_map
        [("Rice", 3600); ("Cotton", 1600); ("Sugarcane", 98000); ("Groundnut", 1900)]);
     ("Gujarat", list_to_map
        [("Cotton", 1500); ("Groundnut", 2100); ("Wheat", 3400); ("Rice", 2600)]);
     ("West Bengal", list_to_map
        [("Rice", 3400); ("Wheat", 3000); ("Potato", 24000); ("Jute", 2200)]);
     ("Rajasthan", list_to_map
        [("Wheat", 3800); ("Mustard", 1200); ("Barley", 2800); ("Cotton", 900)])].

(** Default values if state/crop combination not found. *)
Definition default_yields : gmap string Q :=
  list_to_map
    [("Rice", 3000); ("Wheat", 3200); ("Maize", 4000); ("Cotton", 1200);
     ("Sugarcane", 70000); ("Soybean", 1800); ("Groundnut", 1700);
     ("Pulses", 1200)].

(** The value [default_yields.get] falls back to. *)
Definition global_default_yield : Q := 2500.

(** [get_historical_prediction(state, crop_type)].  Every operation of the
    body ([dict.get] with a default, [in], an f-string over two strings) is
    total in Python, so the function returns its record directly. *)
Definition get_historical_prediction (state crop_type : string) : historical_result :=
  let state_data := dict_get historical_data state ∅ in
  let historical_yield :=
    dict_get state_data crop_type
      (dict_get default_yields crop_type global_default_yield) in
  {| historical_yield := historical_yield;
     data_source := "Average yield data for " +:+ crop_type +:+ " in " +:+ state;
     reliability := if dict_mem historical_data state then 85 else 70 |}.

(** The fallback order in the words of the specification: an exact
    state+crop entry, else the crop's default, else the global default. *)
Inductive resolves (state crop : string) : Q -> Prop :=
| resolves_exact sd y :
    historical_data !! state = Some sd -> sd !! crop = Some y ->
    resolves state crop y
| resolves_crop_default y :
    (forall sd, historical_data !! state = Some sd -> sd !! crop = None) ->
    default_yields !! crop = Some y ->
    resolves state crop y
| resolves_global_default :
    (forall sd, historical_data !! state = Some sd -> sd !! crop = None) ->
    default_yields !! crop = None ->
    resolves state crop global_default_yield.

(** The table has an entry for this state and this crop. *)
Definition has_exact_entry (state crop : string) : Prop :=
  exists sd y, historical_data !! state = Some sd /\ sd !! crop = Some y.

(** [sub] occurs in [s]. *)
Definition mentions (s sub : string) : Prop :=
  exists pre post, s = pre +:+ sub +:+ post.

(** ** Python values, exceptions and the process monad *)

(** A numpy array: its shape and its elements in row-major order. *)
Record ndarray (A : Type) := NdArray { shape : list nat; data : list A }.
Arguments NdArray {A} shape data.
Arguments shape {A} _.
Arguments data {A} _.

(** The Python objects the dashboard passes around.  A [VDict] lists its
    items in insertion order, without duplicate keys. *)
Inductive value :=
| VNone
| VNum (q : Q)
| VStr (s : string)
| VList (l : list value)
| VDict (d : list (string * value))
| VArr (a : ndarray value).

Inductive exn :=
| FileNotFoundError
| UnpicklingError
| EOFError
| ModuleNotFoundError
| AttributeError
| TypeError
| KeyError
| IndexError
| ValueError
| ZeroDivisionError
| RuntimeError
| InvalidInput.

Definition result (A : Type) : Type := exn + A.

(** What a file holding a pickle loads to: a plain value, or an object with
    a [predict] method (the trained artifact, opaque to this code). *)
Inductive pyobj :=
| Plain (v : value)
| Estimator (predict : value -> result value).

(** The two ways the sources load the artifact: [pickle.load] on an opened
    file ([utils/model.py]) and [joblib.load] on a path ([model.py]). *)
Inductive loader := pickle_load | joblib_load.

(** A file on disk: content that does not load, with the exception each
    loader raises on it (an empty file, bytes that are no pickle, a class
    whose module is missing, ...), or a pickled object. *)
Inductive file :=
| Unloadable (raises : loader -> exn)
| Pickle (o : pyobj).

(** What is observed of a run: the calls of [model.predict] with their
    argument, and the true divisions with their operands. *)
Inductive event :=
| EPredict (X : value)
| EDiv (a b : Q).

(** [st.session_state] after a prediction was stored. *)
Record session := {
  ss_prediction_result : value;
  ss_historical_result : historical_result;
  ss_inputs : value
}.

(** The process: the [st.cache_resource] slot of [initialize_model], the
    session state, and the trace of observed events. *)
Record proc := {
  model_cache : option pyobj;
  session_state : option session;
  trace : list event
}.

Definition M (A : Type) : Type := proc -> result A * proc.

Definition ret {A} (x : A) : M A := fun s => (inr x, s).

Definition raise {A} (e : exn) : M A := fun s => (inl e, s).

Definition bind {A B} (c : M A) (k : A -> M B) : M B :=
  fun s =>
    match c s with
    | (inr x, s') => k x s'
    | (inl e, s') => (inl e, s')
    end.

Definition lift {A} (r : result A) : M A := fun s => (r, s).

Definition emit (e : event) : M unit :=
  fun s => (inr tt, {| model_cache := model_cache s;
                       session_state := session_state s;
                       trace := trace s ++ [e] |}).

Notation "'let!' x ':=' c 'in' k" := (bind c (fun x => k))
  (at level 10, x name, c at level 100, k at level 200).
Notation "'do!' c 'in' k" := (bind c (fun _ => k))
  (at level 10, c at level 100, k at level 200).

(** [a / b] on numbers: true division, raising on a zero divisor. *)
Definition truediv (a b : Q) : M Q :=
  do! emit (EDiv a b) in
  if Qeq_bool b 0 then raise ZeroDivisionError else ret (a / b).

(** [a > b] on numbers. *)
Definition gt (a b : Q) : bool := if Qlt_le_dec b a then true else false.

(** [min(a, b)] on numbers. *)
Definition min_of (a b : Q) : Q := if gt a b then b else a.

(** A number is expected where arithmetic or [:.0f] formatting is applied;
    any other value raises there (Python's [str * int] is not followed). *)
Definition as_num (v : value) : result Q :=
  match v with
  | VNum q => inr q
  | _ => inl TypeError
  end.

Fixpoint assoc (k : string) (d : list (string * value)) : option value :=
  match d with
  | [] => None
  | (k', v) :: d' => if String.eqb k k' then Some v else assoc k d'
  end.

(** [v[k]] for a string key. *)
Definition getitem (v : value) (k : string) : result value :=
  match v with
  | VDict d =>
      match assoc k d with
      | Some x => inr x
      | None => inl KeyError
      end
  | VArr _ => inl IndexError
  | VNone | VNum _ | VStr _ | VList _ => inl TypeError
  end.

(** ** numpy *)

(** The number of elements of an array of this shape. *)
Definition size_of (sh : list nat) : nat := fold_right Nat.mul 1%nat sh.

Definition shape_eqb (s1 s2 : list nat) : bool :=
  bool_decide (s1 = s2).

(** Stack the converted items of a list: all must have one shape. *)
Definition stack (items : list (ndarray value)) : result (ndarray value) :=
  match items with
  | [] => inr (NdArray [0%nat] [])
  | a :: rest =>
      if forallb (fun b => shape_eqb (shape b) (shape a)) rest
      then inr (NdArray (length items :: shape a) (concat (map data items)))
      else inl ValueError
  end.

(** Convert every item of a list, stopping at the first that raises. *)
Definition traverse {A B} (f : A -> result B) : list A -> result (list B) :=
  fix go (l : list A) : result (list B) :=
    match l with
    | [] => inr []
    | x :: xs =>
        match f x with
        | inl e => inl e
        | inr y =>
            match go xs with
            | inl e => inl e
            | inr ys => inr (y :: ys)
            end
        end
    end.

(** [np.array(v)]: a nested list becomes an array of as many dimensions, a
    ragged one raises [ValueError]; any other object becomes a
    zero-dimensional array holding it.  Elements are kept as they are (the
    element type numpy picks is not modelled). *)
Fixpoint np_array (v : value) : result (ndarray value) :=
  match v with
  | VList l =>
      match traverse np_array l with
      | inl e => inl e
      | inr items => stack items
      end
  | VArr a => inr a
  | VNone | VNum _ | VStr _ | VDict _ => inr (NdArray [] [v])
  end.

(** [a.reshape(1, -1)]: one row holding every element. *)
Definition reshape_row (a : ndarray value) : ndarray value :=
  NdArray [1%nat; size_of (shape a)] (data a).

(** [v[0]] *)
Definition getitem0 (v : value) : result value :=
  match v with
  | VList (x :: _) => inr x
  | VList [] => inl IndexError
  | VArr a =>
      match shape a with
      | [] => inl IndexError
      | 0%nat :: _ => inl IndexError
      | S _ :: [] =>
          match data a with
          | x :: _ => inr x
          | [] => inl IndexError
          end
      | S _ :: sh => inr (VArr (NdArray sh (take (size_of sh) (data a))))
      end
  | VStr (String c _) => inr (VStr (String c ""))
  | VStr "" => inl IndexError
  | VDict _ => inl KeyError
  | VNone | VNum _ => inl TypeError
  end.

(** [model.predict(X)]: one observed call of the artifact. *)
Definition call_predict (model : pyobj) (X : value) : M value :=
  match model with
  | Estimator predict => do! emit (EPredict X) in lift (predict X)
  | Plain _ => raise AttributeError
  end.

(** Opening [path] and loading its content with the given loader. *)
Definition read_pickle (how : loader) (fs : gmap string file) (path : string)
    : M pyobj :=
  match fs !! path with
  | None => raise FileNotFoundError
  | Some (Unloadable raises) => raise (raises how)
  | Some (Pickle o) => ret o
  end.

(** ** model.py *)
Module Model.

(** [joblib.load("trained_model.pkl")] *)
Definition load_model (fs : gmap string file) : M pyobj :=
  read_pickle joblib_load fs "trained_model.pkl".

(** [model.predict([features])[0]] *)
Definition predict_yield (model : pyobj) (features : value) : M value :=
  let! prediction := call_predict model (VList [features]) in
  lift (getitem0 prediction).

End Model.

(** ** utils/model.py *)
Module UtilsModel.

Definition load_model (fs : gmap string file) : M pyobj :=
  let! model := read_pickle pickle_load fs "trained_model.pkl" in
  ret model.

Definition predict_yield (model : pyobj) (input_data : value) : M value :=
  let! input_array := lift (match np_array input_data with
                       | inl e => inl e
                       | inr a => inr (reshape_row a)
                       end) in
  let! prediction := call_predict model (VArr input_array) in
  lift (getitem0 prediction).

End UtilsModel.

(** ** app.py: inputs and the estimate *)

(** The sidebar widgets of one script run. *)
Record widgets := {
  w_state : string;
  w_rainfall : Q;
  w_temperature : Q;
  w_soil_ph : Q;
  w_crop_type : string;
  predict_button : bool
}.

(** [preprocess_inputs(state, rainfall, temperature, soil_ph, crop_type)] *)
Definition preprocess_inputs (state : string) (rainfall temperature soil_ph : Q)
    (crop_type : string) : value :=
  VDict [("state", VStr state);
         ("rainfall", VNum rainfall);
         ("temperature", VNum temperature);
         ("soil_ph", VNum soil_ph);
         ("crop_type", VStr crop_type)].

Definition inputs_of (w : widgets) : value :=
  preprocess_inputs (w_state w) (w_rainfall w) (w_temperature w) (w_soil_ph w)
    (w_crop_type w).

(** The estimate of [main]: [preprocess_inputs] followed by
    [predict_yield(model, inputs)]. *)
Definition estimate (model : pyobj) (w : widgets) : M value :=
  let inputs := inputs_of w in
  UtilsModel.predict_yield model inputs.

Definition between (lo hi x : Q) : bool := Qle_bool lo x && Qle_bool x hi.

(** The domain of the inputs: what the selectboxes and sliders offer. *)
Definition valid_input (w : widgets) : bool :=
  dict_mem INDIAN_STATES (w_state w)
  && bool_decide (w_crop_type w ∈ CROP_TYPES)
  && between 200 3000 (w_rainfall w)
  && between 15 40 (w_temperature w)
  && between 4 9 (w_soil_ph w).

(** A sequence of numbers, as a list or as a one-dimensional array. *)
Definition is_num (v : value) : bool :=
  match v with VNum _ => true | _ => false end.

Definition is_numeric_vector (v : value) : bool :=
  match v with
  | VList l => forallb is_num l
  | VArr a =>
      match shape a with
      | [_] => forallb is_num (data a)
      | _ => false
      end
  | _ => false
  end.

(** A one-row array of numbers. *)
Definition is_numeric_row (v : value) : bool :=
  match v with
  | VArr a =>
      match shape a with
      | [1%nat; _] => forallb is_num (data a)
      | _ => false
      end
  | _ => false
  end.

(** What the specification asks of a prediction result: a yield that is not
    negative and a confidence between 0 and 100. *)
Definition within_bounds (prediction_result : value) : Prop :=
  exists y c,
    getitem prediction_result "yield" = inr (VNum y) /\
    getitem prediction_result "confidence" = inr (VNum c) /\
    0 <= y /\ 0 <= c /\ c <= 100.

(** ** utils/recommendations.py *)

(** Modelled from the spec: [utils/recommendations.py] is not among the
    sources.  The severity of an advisory record. *)
Inductive severity := positive | caution | informational.

(** Modelled from the spec: an advisory record is a severity and a text. *)
Record AdvisoryRecord := { adv_severity : severity; message : string }.

(** Modelled from the spec: one line of a fixed rule table, a condition on
    (inputs, result) and the record it contributes. *)
Record rule := {
  applies : value -> value -> bool;
  advice : AdvisoryRecord
}.

Section Advisory.

(** Modelled from the spec: the rule tables and the input check of the
    advisory module, which is not among the sources.  A table lists its
    topics in order; a topic lists its rules in order. *)
Variable malformed : value -> value -> bool.
Variable crop_rules : list (list rule).
Variable profit_rules : list (list rule).

(** Modelled from the spec: within a topic the rules are tried top to
    bottom and the first that matches speaks for the topic. *)
Fixpoint first_match (inputs prediction_result : value) (topic : list rule)
    : option AdvisoryRecord :=
  match topic with
  | [] => None
  | r :: rest =>
      if applies r inputs prediction_result then Some (advice r)
      else first_match inputs prediction_result rest
  end.

(** Modelled from the spec: the topics are evaluated top to bottom, each
    contributing at most one record, in table order. *)
Fixpoint evaluate (inputs prediction_result : value) (table : list (list rule))
    : list AdvisoryRecord :=
  match table with
  | [] => []
  | topic :: rest =>
      match first_match inputs prediction_result topic with
      | Some a => a :: evaluate inputs prediction_result rest
      | None => evaluate inputs prediction_result rest
      end
  end.

(** Modelled from the spec: [utils/recommendations.py] is not among the
    sources.  The advisory functions are pure; they reject malformed input
    with [InvalidInput], and otherwise evaluate a fixed rule table top to
    bottom, the first matching rule of each topic contributing its
    record. *)
Definition advise (table : list (list rule)) (inputs prediction_result : value)
    : result (list AdvisoryRecord) :=
  if malformed inputs prediction_result then inl InvalidInput
  else inr (evaluate inputs prediction_result table).

(** Modelled from the spec: [cropRecommendations(input, result)], absent
    from the sources, is the evaluation of the crop rule table. *)
Definition get_crop_recommendations := advise crop_rules.

(** Modelled from the spec: [optimizationSuggestions(input, result)],
    absent from the sources, is the evaluation of the profit rule table. *)
Definition get_optimization_suggestions := advise profit_rules.

(** ** app.py: display_results *)

Inductive achievement :=
| Outstanding_Performance
| Above_Average
| Room_for_Growth
| Learning_Journey.

Inductive widget := st_success | st_warning | st_info.

(** The [for i, rec in enumerate(recs, 1)] loops: each record is shown
    with its number, in the widget its type selects. *)
Definition widget_of (rec : AdvisoryRecord) : widget :=
  match adv_severity rec with
  | positive => st_success
  | caution => st_warning
  | informational => st_info
  end.

Fixpoint enumerate {A} (start : nat) (l : list A) : list (nat * A) :=
  match l with
  | [] => []
  | x :: rest => (start, x) :: enumerate (S start) rest
  end.

Definition numbered (recs : list AdvisoryRecord) : list (nat * widget * string) :=
  map (fun '(i, rec) => (i, widget_of rec, message rec)) (enumerate 1 recs).

(** Indian Rupees per kg. *)
Definition crop_market_rates : gmap string Q :=
  list_to_map
    [("Rice", 20); ("Wheat", 22); ("Maize", 18); ("Cotton", 55);
     ("Sugarcane", 3.5); ("Soybean", 45); ("Groundnut", 52); ("Pulses", 65);
     ("Mustard", 50); ("Sunflower", 55)].

(** [crop_market_rates.get(key, 25)]: an unhashable key raises. *)
Definition market_rate_of (key : value) : result Q :=
  match key with
  | VStr c => inr (dict_get crop_market_rates c 25)
  | VNone | VNum _ => inr 25
  | VList _ | VDict _ | VArr _ => inl TypeError
  end.

(** [d.values()] and [d.keys()] need a dictionary. *)
Definition as_dict (v : value) : result (list (string * value)) :=
  match v with
  | VDict d => inr d
  | _ => inl AttributeError
  end.

(** [inputs[k]] read as a number. *)
Definition num_field (v : value) (k : string) : M Q :=
  let! x := lift (getitem v k) in
  lift (as_num x).

(** What [display_results] computes and shows when it returns.  When it
    raises, what Streamlit had rendered up to there stays on the page; the
    model keeps the exception only. *)
Record display := {
  user_yield : Q;
  shown_historical_yield : Q;
  confidence : Q;
  market_rate : Q;
  user_revenue : Q;
  historical_revenue : Q;
  yield_ratio : Q;
  achieved : achievement;
  reliability_color : string;
  yield_diff : Q;
  yield_diff_percent : Q;
  revenue_diff : Q;
  acres_revenue : Q;
  env_values : list Q;
  crop_recommendations : list (nat * widget * string);
  profit_suggestions : list (nat * widget * string);
  action_items : list string
}.

Definition display_results (prediction_result : value)
    (historical_result : historical_result) (inputs : value) : M display :=
  let! user_yield := lift (getitem prediction_result "yield") in
  let historical_yield := historical_yield historical_result in
  let! confidence := lift (getitem prediction_result "confidence") in
  let! crop_type := lift (getitem inputs "crop_type") in
  let! market_rate := lift (market_rate_of crop_type) in
  let! user_yield := lift (as_num user_yield) in
  let user_revenue := user_yield * market_rate in
  let historical_revenue := historical_yield * market_rate in
  let! yield_ratio :=
    (if gt historical_yield 0 then truediv user_yield historical_yield
     else ret 1) in
  let achieved :=
    if gt yield_ratio 1.2 then Outstanding_Performance
    else if gt yield_ratio 1 then Above_Average
    else if gt yield_ratio 0.8 then Room_for_Growth
    else Learning_Journey in
  let! confidence := lift (as_num confidence) in
  let reliability_color :=
    if gt (reliability historical_result) 80 then "#28a745" else "#ffc107" in
  let yield_diff := user_yield - historical_yield in
  let! yield_diff_percent :=
    (if gt historical_yield 0
     then let! q := truediv user_yield historical_yield in
          ret ((q - 1) * 100)
     else ret 0) in
  let revenue_diff := user_revenue - historical_revenue in
  let acres_revenue := user_revenue * 0.4047 in
  let! factors := lift (getitem prediction_result "factor_importance") in
  let! _ := lift (as_dict factors) in
  let! rainfall := num_field inputs "rainfall" in
  let! r := truediv rainfall 1500 in
  let! temperature := num_field inputs "temperature" in
  let! t := truediv temperature 40 in
  let! soil_ph := num_field inputs "soil_ph" in
  let! p := truediv soil_ph 10 in
  let env_values := [min_of r 1; t; p] in
  let! suitability := lift (getitem prediction_result "climate_suitability") in
  let! _ := lift (getitem suitability "temperature") in
  let! _ := lift (getitem suitability "rainfall") in
  let! _ := lift (getitem suitability "overall") in
  let! regional_data := lift (getitem prediction_result "regional_comparison") in
  let! _ := lift (as_dict regional_data) in
  let! seasonal_data := lift (getitem prediction_result "seasonal_trends") in
  let! _ := lift (as_dict seasonal_data) in
  let! crop_recommendations :=
    lift (get_crop_recommendations inputs prediction_result) in
  let! profit_suggestions :=
    lift (get_optimization_suggestions inputs prediction_result) in
  let action_items :=
    app (if gt user_yield historical_yield
     then ["Your conditions are great! Focus on maintaining current practices";
           "Consider expanding cultivation area for increased profits"]
     else ["Monitor water supply and plan irrigation carefully";
           "Consider soil health improvement measures"])
      ["Keep track of market prices for best selling time";
        "Watch weather forecasts and plan accordingly";
        "Connect with local agricultural extension officers for guidance"] in
  ret {| user_yield := user_yield;
         shown_historical_yield := historical_yield;
         confidence := confidence;
         market_rate := market_rate;
         user_revenue := user_revenue;
         historical_revenue := historical_revenue;
         yield_ratio := yield_ratio;
         achieved := achieved;
         reliability_color := reliability_color;
         yield_diff := yield_diff;
         yield_diff_percent := yield_diff_percent;
         revenue_diff := revenue_diff;
         acres_revenue := acres_revenue;
         env_values := env_values;
         crop_recommendations := numbered crop_recommendations;
         profit_suggestions := numbered profit_suggestions;
         action_items := action_items |}.

(** ** app.py: main *)

Definition get_cache : M (option pyobj) := fun s => (inr (model_cache s), s).

Definition set_cache (m : pyobj) : M unit :=
  fun s => (inr tt, {| model_cache := Some m;
                       session_state := session_state s;
                       trace := trace s |}).

Definition get_session : M (option session) :=
  fun s => (inr (session_state s), s).

Definition set_session (ss : session) : M unit :=
  fun s => (inr tt, {| model_cache := model_cache s;
                       session_state := Some ss;
                       trace := trace s |}).

(** [initialize_model] under [st.cache_resource]: the model is loaded on
    the first call of the process and kept; a call that raises stores
    nothing. *)
Definition initialize_model (fs : gmap string file) : M pyobj :=
  let! cached := get_cache in
  match cached with
  | Some model => ret model
  | None =>
      let! model := UtilsModel.load_model fs in
      do! set_cache model in
      ret model
  end.

Definition is_None (o : pyobj) : bool :=
  match o with Plain VNone => true | _ => false end.

Definition value_is_None (v : value) : bool :=
  match v with VNone => true | _ => false end.

(** How one run of the script ends when no exception escapes it. *)
Inductive outcome :=
| model_error_shown
| prediction_error_shown
| nothing_to_show
| results_shown (d : display).

Definition main (fs : gmap string file) (w : widgets) : M outcome :=
  let! model := initialize_model fs in
  if is_None model then ret model_error_shown
  else
    let! failed :=
      (if predict_button w then
         let inputs := inputs_of w in
         let! prediction_result := UtilsModel.predict_yield model inputs in
         let historical_result :=
           get_historical_prediction (w_state w) (w_crop_type w) in
         if value_is_None prediction_result then ret true
         else
           do! set_session {| ss_prediction_result := prediction_result;
                              ss_historical_result := historical_result;
                              ss_inputs := inputs |} in
           ret false
       else ret false) in
    if (failed : bool) then ret prediction_error_shown
    else
      let! stored := get_session in
      match stored with
      | Some ss =>
          let! d := display_results (ss_prediction_result ss)
                      (ss_historical_result ss) (ss_inputs ss) in
          ret (results_shown d)
      | None => ret nothing_to_show
      end.

End Advisory.

(** ** Sample runs: a process, inputs and artifacts *)

(** A process that has just started: nothing cached, nothing stored. *)
Definition fresh : proc :=
  {| model_cache := None; session_state := None; trace := [] |}.

(** The default choices of the sidebar for Punjab and Wheat, button pressed. *)
Definition punjab_wheat : widgets :=
  {| w_state := "Punjab"; w_rainfall := 800; w_temperature := 25;
     w_soil_ph := 6.5; w_crop_type := "Wheat"; predict_button := true |}.

(** The single row of a one-row array. *)
Definition only_row (X : value) : result value :=
  match X with
  | VArr a =>
      match shape a, data a with
      | [1%nat; 1%nat], [row] => inr row
      | _, _ => inl ValueError
      end
  | _ => inl ValueError
  end.

(** An artifact whose yield grows with rainfall from -1000 kg/ha and which
    reports a confidence of 110. *)
Definition rainfall_artifact : pyobj :=
  Estimator (fun X =>
    match only_row X with
    | inl e => inl e
    | inr row =>
        match getitem row "rainfall" with
        | inr (VNum r) =>
            inr (VList [VDict [("yield", VNum (r - 1000));
                               ("confidence", VNum 110)]])
        | _ => inl ValueError
        end
    end).

(** An artifact that returns a complete result: four kg/ha per mm of rain,
    confidence 90. *)
Definition complete_result (r : Q) : value :=
  VDict [("yield", VNum (4 * r));
         ("confidence", VNum 90);
         ("factor_importance", VDict [("Rainfall", VNum 40); ("Soil pH", VNum 25)]);
         ("climate_suitability",
            VDict [("temperature", VNum 80); ("rainfall", VNum 70);
                   ("overall", VNum 75)]);
         ("regional_comparison", VDict [("Punjab", VNum 4800)]);
         ("seasonal_trends", VDict [("Jan", VNum 3000); ("Feb", VNum 3100)])].

Definition complete_artifact : pyobj :=
  Estimator (fun X =>
    match only_row X with
    | inl e => inl e
    | inr row =>
        match getitem row "rainfall" with
        | inr (VNum r) => inr (VList [complete_result r])
        | _ => inl ValueError
        end
    end).

(** The rows of an [n] by [m] array. *)
Fixpoint rows_of (n m : nat) (d : list value) : list (list value) :=
  match n with
  | O => []
  | S n' => take m d :: rows_of n' m (drop m d)
  end.

Fixpoint sum_of (row : list value) : result Q :=
  match row with
  | [] => inr 0
  | x :: rest =>
      match as_num x, sum_of rest with
      | inr q, inr t => inr (q + t)
      | inl e, _ => inl e
      | _, inl e => inl e
      end
  end.

(** A regressor in the manner of scikit-learn: it converts what it is given
    with [np.asarray], insists on two dimensions, and predicts for each row
    the sum of its features. *)
Definition row_sum_regressor : pyobj :=
  Estimator (fun X =>
    match np_array X with
    | inl e => inl e
    | inr a =>
        match shape a with
        | [n; m] =>
            match traverse sum_of (rows_of n m (data a)) with
            | inl e => inl e
            | inr sums => inr (VArr (NdArray [n] (map VNum sums)))
            end
        | _ => inl ValueError
        end
    end).

(** An estimator accepts array-likes when it treats an argument as the array
    [np.asarray] makes of it. *)
Definition accepts_array_likes (model : pyobj) : Prop :=
  match model with
  | Estimator predict =>
      forall v a, np_array v = inr a -> predict v = predict (VArr a)
  | Plain _ => True
  end.

(** A small rule table: one topic on soil pH, one on yield. *)
Definition ph_of (inputs : value) : Q :=
  match getitem inputs "soil_ph" with
  | inr (VNum p) => p
  | _ => 7
  end.

Definition sample_rules : list (list rule) :=
  [[{| applies := fun i _ => gt 5.5 (ph_of i);
       advice := {| adv_severity := caution; message := "Soil is acidic" |} |};
    {| applies := fun i _ => gt (ph_of i) 7.5;
       advice := {| adv_severity := caution; message := "Soil is alkaline" |} |};
    {| applies := fun _ _ => true;
       advice := {| adv_severity := positive; message := "Soil pH is suitable" |} |}];
   [{| applies := fun _ r => match getitem r "yield" with
                             | inr (VNum y) => gt y 3000
                             | _ => false
                             end;
       advice := {| adv_severity := informational;
                    message := "Plan storage for a large harvest" |} |}]].

Definition never_malformed (inputs prediction_result : value) : bool := false.

(** A result carries the bounds when it is a value within them. *)
Definition result_within_bounds (r : result value) : Prop :=
  match r with
  | inr v => within_bounds v
  | inl _ => False
  end.

(** The divisor of a division event is positive. *)
Definition positive_divisor (e : event) : Prop :=
  match e with
  | EDiv _ b => 0 < b
  | EPredict _ => True
  end.

(** A computation divides safely when every division it adds to the trace
    has a positive divisor and it does not end in [ZeroDivisionError]. *)
Definition divides_safely {A} (c : M A) : Prop :=
  forall s, exists new,
    trace (snd (c s)) = trace s ++ new /\
    Forall positive_divisor new /\
    fst (c s) <> inl ZeroDivisionError.

(** A reference without history: a yield of 0. *)
Definition no_history : historical_result :=
  {| historical_yield := 0; data_source := "No data"; reliability := 70 |}.

(** A disk holding the complete artifact. *)
Definition disk_with_artifact : gmap string file :=
  {["trained_model.pkl" := Pickle complete_artifact]}.

(** ** data/states_data.py: the reference tables *)

(** State-wise major crops. *)
Definition STATE_MAJOR_CROPS : gmap string (list string) :=
  list_to_map
    [("Punjab", ["Wheat"; "Rice"; "Maize"; "Cotton"]);
     ("Haryana", ["Wheat"; "Rice"; "Sugarcane"; "Cotton"]);
     ("Uttar Pradesh", ["Wheat"; "Rice"; "Sugarcane"; "Potato"]);
     ("Madhya Pradesh", ["Wheat"; "Soybean"; "Rice"; "Cotton"]);
     ("Maharashtra", ["Cotton"; "Sugarcane"; "Soybean"; "Rice"]);
     ("Karnataka", ["Rice"; "Cotton"; "Sugarcane"; "Maize"]);
     ("Andhra Pradesh", ["Rice"; "Cotton"; "Groundnut"; "Sugarcane"]);
     ("Tamil Nadu", ["Rice"; "Cotton"; "Sugarcane"; "Groundnut"]);
     ("Gujarat", ["Cotton"; "Groundnut"; "Wheat"; "Rice"]);
     ("Rajasthan", ["Wheat"; "Mustard"; "Barley"; "Cotton"]);
     ("West Bengal", ["Rice"; "Wheat"; "Potato"; "Jute"]);
     ("Bihar", ["Rice"; "Wheat"; "Maize"; "Sugarcane"]);
     ("Odisha", ["Rice"; "Wheat"; "Sugarcane"; "Cotton"]);
     ("Telangana", ["Rice"; "Cotton"; "Maize"; "Sugarcane"]);
     ("Kerala", ["Rice"; "Coconut"; "Spices"; "Rubber"]);
     ("Assam", ["Rice"; "Tea"; "Jute"; "Cotton"])].

(** Soil type preferences for crops. *)
Record soil_preference := {
  soil_types : list string;
  ph_range : Q * Q;
  drainage : string
}.

Definition CROP_SOIL_PREFERENCES : gmap string soil_preference :=
  list_to_map
    [("Rice", {| soil_types := ["Clay"; "Clay Loam"];
                 ph_range := (5.5, 6.5);
                 drainage := "Poor to moderate" |});
     ("Wheat", {| soil_types := ["Loam"; "Clay Loam"; "Sandy Loam"];
                  ph_range := (6.0, 7.5);
                  drainage := "Well drained" |});
     ("Cotton", {| soil_types := ["Black Cotton Soil"; "Clay Loam"];
                   ph_range := (5.8, 8.0);
                   drainage := "Well drained" |});
     ("Maize", {| soil_types := ["Loam"; "Sandy Loam"; "Clay Loam"];
                  ph_range := (6.0, 7.5);
                  drainage := "Well drained" |});
     ("Sugarcane", {| soil_types := ["Clay Loam"; "Loam"];
                      ph_range := (6.5, 7.5);
                      drainage := "Moderate" |});
     ("Soybean", {| soil_types := ["Clay Loam"; "Sandy Loam"];
                    ph_range := (6.0, 7.0);
                    drainage := "Well drained" |})].

(** Climate requirements for major crops. *)
Record climate_requirement := {
  temperature_range : Q * Q;
  rainfall_range : Q * Q;
  humidity : string;
  season : string
}.

Definition CROP_CLIMATE_REQUIREMENTS : gmap string climate_requirement :=
  list_to_map
    [("Rice", {| temperature_range := (20, 35); rainfall_range := (1000, 2000);
                 humidity := "High"; season := "Kharif" |});
     ("Wheat", {| temperature_range := (12, 25); rainfall_range := (450, 650);
                  humidity := "Low to moderate"; season := "Rabi" |});
     ("Cotton", {| temperature_range := (21, 35); rainfall_range := (500, 1000);
                   humidity := "Moderate"; season := "Kharif" |});
     ("Maize", {| temperature_range := (18, 32); rainfall_range := (500, 800);
                  humidity := "Moderate"; season := "Kharif/Rabi" |});
     ("Sugarcane", {| temperature_range := (20, 35); rainfall_range := (1500, 2500);
                      humidity := "High"; season := "Year round" |});
     ("Soybean", {| temperature_range := (15, 30); rainfall_range := (450, 700);
                    humidity := "Moderate"; season := "Kharif" |})].

(** ** What a run adds to the trace *)

(** The arguments of the [predict] calls of a trace, in order. *)
Fixpoint predict_calls (t : list event) : list value :=
  match t with
  | [] => []
  | EPredict X :: rest => X :: predict_calls rest
  | EDiv _ _ :: rest => predict_calls rest
  end.

Definition with_trace (s : proc) (t : list event) : proc :=
  {| model_cache := model_cache s; session_state := session_state s; trace := t |}.

(** A computation only appends to the trace when it leaves the model cache
    and the session alone and the events it adds are divisions. *)
Definition only_divides {A} (c : M A) : Prop :=
  forall s, exists new,
    snd (c s) = with_trace s (trace s ++ new) /\ predict_calls new = [].

(** The process after [st.session_state] was assigned. *)
Definition with_session (s : proc) (ss : session) : proc :=
  {| model_cache := model_cache s; session_state := Some ss; trace := trace s |}.

(** The process after the model was cached. *)
Definition with_cache (s : proc) (m : pyobj) : proc :=
  {| model_cache := Some m; session_state := session_state s; trace := trace s |}.

(** A regressor that predicts the same number for every row, as an array
    of one number. *)
Definition constant_regressor (q : Q) : pyobj :=
  Estimator (fun _ => inr (VArr (NdArray [1%nat] [VNum q]))).

(** What the loaders raise on bytes that are no pickle. *)
Definition garbage_raises (how : loader) : exn :=
  match how with
  | pickle_load => UnpicklingError
  | joblib_load => ValueError
  end.

(** A disk whose artifact file does not unpickle. *)
Definition disk_with_garbage : gmap string file :=
  {["trained_model.pkl" := Unloadable garbage_raises]}.



(** A disk whose artifact file holds a pickled [None]. *)
Definition disk_with_none : gmap string file :=
  {["trained_model.pkl" := Pickle (Plain VNone)]}.

(** The one-row array [predict_yield] builds from the input mapping. *)
Definition features_row (w : widgets) : value :=
  VArr (NdArray [1%nat; 1%nat] [inputs_of w]).

(** The session a successful prediction stores. *)
Definition stored_session (w : widgets) (prediction_result : value) : session :=
  {| ss_prediction_result := prediction_result;
     ss_historical_result := get_historical_prediction (w_state w) (w_crop_type w);
     ss_inputs := inputs_of w |}.

(** The first two action items. *)
Definition praises (d : display) : Prop :=
  take 2 (action_items d)
    = ["Your conditions are great! Focus on maintaining current practices";
       "Consider expanding cultivation area for increased profits"].

Definition in_unit_interval (q : Q) : Prop := 0 <= q /\ q <= 1.

(** The prediction branch of [main]: whether the run must stop on a failed
    prediction. *)
Definition predict_and_store (model : pyobj) (w : widgets) : M bool :=
  if predict_button w then
    let inputs := inputs_of w in
    let! prediction_result := UtilsModel.predict_yield model inputs in
    let historical_result :=
      get_historical_prediction (w_state w) (w_crop_type w) in
    if value_is_None prediction_result then ret true
    else
      do! set_session {| ss_prediction_result := prediction_result;
                         ss_historical_result := historical_result;
                         ss_inputs := inputs |} in
      ret false
  else ret false.

(** The last step of [main]: display what the session holds, if anything. *)
Definition show_stored (malformed : value -> value -> bool)
    (crop_rules profit_rules : list (list rule)) : M outcome :=
  let! stored := get_session in
  match stored with
  | Some ss =>
      let! d := display_results malformed crop_rules profit_rules
                  (ss_prediction_result ss) (ss_historical_result ss)
                  (ss_inputs ss) in
      ret (results_shown d)
  | None => ret nothing_to_show
  end.

(** The achievement [display_results] derives from a yield ratio. *)
Definition achievement_of (yield_ratio : Q) : achievement :=
  if gt yield_ratio 1.2 then Outstanding_Performance
  else if gt yield_ratio 1 then Above_Average
  else if gt yield_ratio 0.8 then Room_for_Growth
  else Learning_Journey.

(** The keys [display_results] reads from a prediction result. *)
Definition result_keys : list string :=
  ["yield"; "confidence"; "factor_importance"; "climate_suitability";
   "regional_comparison"; "seasonal_trends"].

(** The display of a sample run: the complete artifact's result for the
    Punjab/Wheat inputs against the Punjab/Wheat reference. *)
Definition sample_display_run : result display * proc :=
  display_results never_malformed sample_rules sample_rules
    (complete_result 800) (get_historical_prediction "Punjab" "Wheat")
    (inputs_of punjab_wheat) fresh.

(** The same result shown against a reference without history. *)
Definition sample_display_without_history : result display * proc :=
  display_results never_malformed sample_rules sample_rules
    (complete_result 800) no_history (inputs_of punjab_wheat) fresh.

(** ** Properties of the historical reference *)

Lemma dict_get_Some {V} (d : gmap string V) k dflt v :
  d !! k = Some v -> dict_get d k dflt = v.
Proof. unfold dict_get. intros ->. reflexivity. Qed.

Lemma dict_get_None {V} (d : gmap string V) k dflt :
  d !! k = None -> dict_get d k dflt = dflt.
Proof. unfold dict_get. intros ->. reflexivity. Qed.

Lemma resolves_functional state crop y1 y2 :
  resolves state crop y1 -> resolves state crop y2 -> y1 = y2.
Proof.
  intros H1 H2.
  destruct H1 as [sd y Hs Hc | y Hno Hd | Hno Hd];
    destruct H2 as [sd' y' Hs' Hc' | y' Hno' Hd' | Hno' Hd'];
    try congruence.
  - specialize (Hno' _ Hs). congruence.
  - specialize (Hno' _ Hs). congruence.
  - specialize (Hno _ Hs'). congruence.
  - specialize (Hno _ Hs'). congruence.
Qed.

Lemma historical_yield_resolves state crop :
  resolves state crop (historical_yield (get_historical_prediction state crop)).
Proof.
  unfold get_historical_prediction. cbn [historical_yield].
  destruct (historical_data !! state) as [sd|] eqn:Hs.
  - rewrite (dict_get_Some _ _ _ _ Hs).
    destruct (sd !! crop) as [y|] eqn:Hc.
    + rewrite (dict_get_Some _ _ _ _ Hc). eapply resolves_exact; eassumption.
    + rewrite (dict_get_None _ _ _ Hc).
      destruct (default_yields !! crop) as [d|] eqn:Hd.
      * rewrite (dict_get_Some _ _ _ _ Hd).
        apply resolves_crop_default; [congruence | assumption].
      * rewrite (dict_get_None _ _ _ Hd).
        apply resolves_global_default; [congruence | assumption].
  - rewrite (dict_get_None _ _ _ Hs).
    rewrite (dict_get_None (∅ : gmap string Q) crop _ (lookup_empty _)).
    destruct (default_yields !! crop) as [d|] eqn:Hd.
    + rewrite (dict_get_Some _ _ _ _ Hd).
      apply resolves_crop_default; [congruence | assumption].
    + rewrite (dict_get_None _ _ _ Hd).
      apply resolves_global_default; [congruence | assumption].
Qed.

(** C1, as the code has it: for state "Ladakh" and crop "Mustard" the lookup
    finds neither a state entry nor a crop default ("Mustard" is not a key of
    [default_yields]) and returns the global default 2500, with
    reliability 70. *)
Theorem ladakh_mustard_global_default :
  historical_data !! "Ladakh" = None /\
  default_yields !! "Mustard" = None /\
  historical_yield (get_historical_prediction "Ladakh" "Mustard") = 2500%Q /\
  reliability (get_historical_prediction "Ladakh" "Mustard") = 70%Q.
Proof. vm_compute. repeat split; reflexivity. Qed.

(** C1, as the specification words it (a crop-level default of 1200), does
    not hold: the yield returned for ("Ladakh", "Mustard") is not 1200. *)
Lemma ladakh_mustard_not_1200 :
  ~ (historical_yield (get_historical_prediction "Ladakh" "Mustard") == 1200)%Q.
Proof. vm_compute. discriminate. Qed.

(** C2: the lookup is defined for every pair of strings, and the yield it
    returns is the one the fallback order determines: the exact state+crop
    entry, else the crop's default, else the global default.  No other value
    satisfies the fallback order. *)
Theorem lookup_total_with_fallback_order (state crop : string) :
  exists r : historical_result,
    get_historical_prediction state crop = r /\
    resolves state crop (historical_yield r) /\
    (forall y, resolves state crop y -> y = historical_yield r).
Proof.
  exists (get_historical_prediction state crop).
  split; [reflexivity | split].
  - apply historical_yield_resolves.
  - intros y Hy.
    exact (resolves_functional _ _ _ _ Hy (historical_yield_resolves state crop)).
Qed.

(** C3: for ("Punjab", "Wheat") the lookup returns 4800 kg/ha with
    reliability 85, and its source text mentions both "Wheat" and
    "Punjab". *)
Theorem punjab_wheat_reference :
  historical_yield (get_historical_prediction "Punjab" "Wheat") = 4800%Q /\
  reliability (get_historical_prediction "Punjab" "Wheat") = 85%Q /\
  mentions (data_source (get_historical_prediction "Punjab" "Wheat")) "Wheat" /\
  mentions (data_source (get_historical_prediction "Punjab" "Wheat")) "Punjab".
Proof.
  split; [vm_compute; reflexivity|].
  split; [vm_compute; reflexivity|].
  split.
  - exists "Average yield data for ", " in Punjab". reflexivity.
  - exists "Average yield data for Wheat in ", "". reflexivity.
Qed.

(** C4, as the code has it: the reliability depends on the state alone.  It
    is 85 exactly when the historical table has an entry for the state,
    whatever the crop, and 70 exactly when it has none. *)
Theorem reliability_by_state (state crop : string) :
  (reliability (get_historical_prediction state crop) = 85%Q <->
     is_Some (historical_data !! state)) /\
  (reliability (get_historical_prediction state crop) = 70%Q <->
     historical_data !! state = None).
Proof.
  unfold get_historical_prediction, dict_mem. cbn [reliability].
  destruct (historical_data !! state) as [sd|].
  - split; split; intros H; try discriminate; try reflexivity.
    + exists sd. reflexivity.
  - split; split; intros H; try discriminate; try reflexivity.
    + destruct H as [x Hx]. discriminate.
Qed.

(** C4, as the specification words it (85 exactly when the table has an
    entry for the state and the crop), does not hold: "Punjab" has no
    "Mustard" entry, yet the reliability is 85. *)
Lemma punjab_mustard_reliability :
  ~ has_exact_entry "Punjab" "Mustard" /\
  reliability (get_historical_prediction "Punjab" "Mustard") = 85%Q /\
  ~ (reliability (get_historical_prediction "Punjab" "Mustard") = 85%Q <->
     has_exact_entry "Punjab" "Mustard").
Proof.
  assert (Hno : ~ has_exact_entry "Punjab" "Mustard").
  { intros (sd & y & Hs & Hc).
    vm_compute in Hs. injection Hs as <-. vm_compute in Hc. discriminate. }
  assert (Hrel : reliability (get_historical_prediction "Punjab" "Mustard") = 85%Q)
    by (vm_compute; reflexivity).
  split; [exact Hno | split; [exact Hrel |]].
  intros [H _]. exact (Hno (H Hrel)).
Qed.

(** ** The process monad *)

Lemma bind_inr {A B} (c : M A) (k : A -> M B) (s : proc) (y : B) :
  fst (bind c k s) = inr y ->
  exists x s', c s = (inr x, s') /\ fst (k x s') = inr y.
Proof.
  unfold bind. destruct (c s) as [[e | x] s'] eqn:Hc; cbn.
  - discriminate.
  - intros H. exists x, s'. split; [reflexivity | exact H].
Qed.

Lemma gt_true (a b : Q) : gt a b = true -> b < a.
Proof. unfold gt. destruct (Qlt_le_dec b a); [trivial | discriminate]. Qed.

Lemma gt_false (a b : Q) : a <= b -> gt a b = false.
Proof.
  unfold gt. intros H. destruct (Qlt_le_dec b a) as [Hlt | _]; [| reflexivity].
  exfalso. exact (Qlt_not_le _ _ Hlt H).
Qed.

(** ** The estimate *)

Lemma np_array_inputs (w : widgets) :
  np_array (inputs_of w) = inr (NdArray [] [inputs_of w]).
Proof. reflexivity. Qed.

Lemma estimate_run (predict : value -> result value) (w : widgets) (s : proc) :
  estimate (Estimator predict) w s =
  (match predict (VArr (NdArray [1%nat; 1%nat] [inputs_of w])) with
   | inr out => getitem0 out
   | inl e => inl e
   end,
   {| model_cache := model_cache s;
      session_state := session_state s;
      trace := trace s ++ [EPredict (VArr (NdArray [1%nat; 1%nat] [inputs_of w]))] |}).
Proof.
  unfold estimate, UtilsModel.predict_yield, call_predict, bind, lift, emit.
  rewrite np_array_inputs. cbn.
  destruct (predict _) as [e | out]; reflexivity.
Qed.

(** C5, as the code has it: for every valid input and every artifact, the
    estimate is, unchanged, the first element of what the artifact's
    [predict] returns for the one-row array holding the input mapping.  The
    code neither clamps nor checks it: the estimate has a yield of at least
    0 and a confidence in [0,100] exactly when that element has. *)
Theorem estimate_returns_artifact_prediction
    (predict : value -> result value) (w : widgets) (s : proc) (out r : value) :
  valid_input w = true ->
  predict (VArr (NdArray [1%nat; 1%nat] [inputs_of w])) = inr out ->
  getitem0 out = inr r ->
  fst (estimate (Estimator predict) w s) = inr r /\
  (result_within_bounds (fst (estimate (Estimator predict) w s)) <-> within_bounds r).
Proof.
  intros _ Hp Hout. rewrite estimate_run, Hp, Hout. cbn. split; [reflexivity | tauto].
Qed.

Lemma estimate_returns_artifact_prediction_witness :
  valid_input punjab_wheat = true /\
  fst (estimate complete_artifact punjab_wheat fresh) = inr (complete_result 800) /\
  (result_within_bounds (fst (estimate complete_artifact punjab_wheat fresh)) <->
   within_bounds (complete_result 800)).
Proof.
  split; [reflexivity |].
  unfold complete_artifact.
  apply (estimate_returns_artifact_prediction _ punjab_wheat fresh
           (VList [complete_result 800]) (complete_result 800));
    reflexivity.
Defined.

(** C5, as the specification words it, does not hold: on the valid input
    (Punjab, 800 mm, 25 C, pH 6.5, Wheat) an artifact that predicts
    rainfall - 1000 makes the estimate return a yield of -200 and a
    confidence of 110. *)
Lemma estimate_out_of_bounds :
  valid_input punjab_wheat = true /\
  fst (estimate rainfall_artifact punjab_wheat fresh)
    = inr (VDict [("yield", VNum (-200)); ("confidence", VNum 110)]) /\
  ~ result_within_bounds (fst (estimate rainfall_artifact punjab_wheat fresh)).
Proof.
  split; [reflexivity |].
  assert (H : fst (estimate rainfall_artifact punjab_wheat fresh)
              = inr (VDict [("yield", VNum (-200)); ("confidence", VNum 110)]))
    by (vm_compute; reflexivity).
  split; [exact H |].
  rewrite H. intros (y & c & Hy & Hc & Hy0 & _).
  cbn in Hy. injection Hy as <-.
  revert Hy0. vm_compute. intros Hy0. apply Hy0. reflexivity.
Qed.




(** C7, as the code has it: feature construction packs the five fields,
    unchanged, into a mapping with the keys state, rainfall, temperature,
    soil_ph, crop_type in this order (state and crop stay strings; nothing
    is encoded or scaled); the estimate makes exactly one [predict] call, on
    the one-row array holding that mapping, and returns the first element of
    what the call returns. *)
Theorem features_are_the_input_mapping
    (state crop : string) (rainfall temperature soil_ph : Q)
    (predict : value -> result value) (s : proc) :
  let inputs := preprocess_inputs state rainfall temperature soil_ph crop in
  let X := VArr (NdArray [1%nat; 1%nat] [inputs]) in
  as_dict inputs
    = inr [("state", VStr state); ("rainfall", VNum rainfall);
           ("temperature", VNum temperature); ("soil_ph", VNum soil_ph);
           ("crop_type", VStr crop)] /\
  trace (snd (UtilsModel.predict_yield (Estimator predict) inputs s))
    = trace s ++ [EPredict X] /\
  fst (UtilsModel.predict_yield (Estimator predict) inputs s)
    = match predict X with
      | inr out => getitem0 out
      | inl e => inl e
      end.
Proof.
  intros inputs X.
  pose (w := {| w_state := state; w_rainfall := rainfall;
                w_temperature := temperature; w_soil_ph := soil_ph;
                w_crop_type := crop; predict_button := true |}).
  pose proof (estimate_run predict w s) as Hrun.
  change (estimate (Estimator predict) w s)
    with (UtilsModel.predict_yield (Estimator predict) inputs s) in Hrun.
  change (inputs_of w) with inputs in Hrun. fold X in Hrun.
  rewrite Hrun. cbn [fst snd trace]. repeat split; reflexivity.
Qed.

(** C7, as the specification words it, does not hold: for (Punjab, 800, 25,
    6.5, Wheat) what feature construction returns is no vector of numbers,
    and neither is the row the single [predict] call receives. *)
Lemma features_not_numeric :
  is_numeric_vector (preprocess_inputs "Punjab" 800 25 6.5 "Wheat") = false /\
  trace (snd (UtilsModel.predict_yield complete_artifact
                (preprocess_inputs "Punjab" 800 25 6.5 "Wheat") fresh))
    = [EPredict (VArr (NdArray [1%nat; 1%nat]
                         [preprocess_inputs "Punjab" 800 25 6.5 "Wheat"]))] /\
  is_numeric_row (VArr (NdArray [1%nat; 1%nat]
                          [preprocess_inputs "Punjab" 800 25 6.5 "Wheat"])) = false.
Proof. repeat split; reflexivity. Qed.

(** ** Divisions in display_results *)

Lemma ret_divides_safely {A} (x : A) : divides_safely (ret x).
Proof.
  intros s. exists []. cbn. rewrite app_nil_r.
  split; [reflexivity | split; [constructor | discriminate]].
Qed.

Lemma lift_divides_safely {A} (r : result A) :
  r <> inl ZeroDivisionError -> divides_safely (lift r).
Proof.
  intros Hr s. exists []. cbn. rewrite app_nil_r.
  split; [reflexivity | split; [constructor | exact Hr]].
Qed.

Lemma bind_divides_safely {A B} (c : M A) (k : A -> M B) :
  divides_safely c -> (forall x, divides_safely (k x)) -> divides_safely (bind c k).
Proof.
  intros Hc Hk s. unfold bind.
  destruct (Hc s) as (n1 & Ht1 & Hf1 & He1).
  destruct (c s) as [[e | x] s1]; cbn in *.
  - exists n1. split; [exact Ht1 | split; [exact Hf1 |]].
    intros [= ->]. apply He1. reflexivity.
  - destruct (Hk x s1) as (n2 & Ht2 & Hf2 & He2).
    exists (n1 ++ n2). rewrite Ht2, Ht1, app_assoc.
    split; [reflexivity | split; [| exact He2]].
    apply Forall_app. split; assumption.
Qed.

Lemma truediv_divides_safely (a b : Q) : 0 < b -> divides_safely (truediv a b).
Proof.
  intros Hb s. exists [EDiv a b].
  unfold truediv, bind, emit. cbn.
  destruct (Qeq_bool b 0) eqn:Hz.
  - apply Qeq_bool_iff in Hz. rewrite Hz in Hb. exfalso. exact (Qlt_irrefl _ Hb).
  - cbn. split; [reflexivity | split; [| discriminate]].
    constructor; [exact Hb | constructor].
Qed.

Lemma getitem_not_zero_division (v : value) (k : string) :
  getitem v k <> inl ZeroDivisionError.
Proof.
  destruct v; cbn; try discriminate.
  destruct (assoc k d); discriminate.
Qed.

Lemma as_num_not_zero_division (v : value) : as_num v <> inl ZeroDivisionError.
Proof. destruct v; discriminate. Qed.

Lemma as_dict_not_zero_division (v : value) : as_dict v <> inl ZeroDivisionError.
Proof. destruct v; discriminate. Qed.

Lemma market_rate_not_zero_division (v : value) :
  market_rate_of v <> inl ZeroDivisionError.
Proof. destruct v; discriminate. Qed.

Lemma advise_not_zero_division (malformed : value -> value -> bool)
    (table : list (list rule)) (inputs pr : value) :
  advise malformed table inputs pr <> inl ZeroDivisionError.
Proof. unfold advise. destruct (malformed inputs pr); discriminate. Qed.

Lemma num_field_divides_safely (v : value) (k : string) :
  divides_safely (num_field v k).
Proof.
  unfold num_field. apply bind_divides_safely.
  - apply lift_divides_safely, getitem_not_zero_division.
  - intros x. apply lift_divides_safely, as_num_not_zero_division.
Qed.

Create HintDb divs.

#[local] Hint Resolve ret_divides_safely num_field_divides_safely
  getitem_not_zero_division as_num_not_zero_division as_dict_not_zero_division
  market_rate_not_zero_division advise_not_zero_division : divs.

Ltac divs_step :=
  first
    [ apply truediv_divides_safely; reflexivity
    | apply num_field_divides_safely
    | apply ret_divides_safely
    | apply lift_divides_safely; auto with divs
    | apply bind_divides_safely; [| intros ?] ].

Lemma display_results_divides_safely
    (malformed : value -> value -> bool) (crop_rules profit_rules : list (list rule))
    (prediction_result : value) (hr : historical_result) (inputs : value) :
  divides_safely
    (display_results malformed crop_rules profit_rules prediction_result hr inputs).
Proof.
  unfold display_results, get_crop_recommendations, get_optimization_suggestions.
  destruct (gt (historical_yield hr) 0) eqn:Hgt.
  - apply gt_true in Hgt.
    pose proof (fun a => truediv_divides_safely a _ Hgt) as Hdiv.
    repeat first [ apply Hdiv | divs_step ].
  - repeat divs_step.
Qed.

Lemma display_results_guarded_values
    (malformed : value -> value -> bool) (crop_rules profit_rules : list (list rule))
    (prediction_result : value) (hr : historical_result) (inputs : value)
    (s : proc) (d : display) :
  historical_yield hr <= 0 ->
  fst (display_results malformed crop_rules profit_rules prediction_result hr inputs s)
    = inr d ->
  yield_ratio d = 1 /\ yield_diff_percent d = 0.
Proof.
  intros Hle Hrun. unfold display_results in Hrun.
  rewrite (gt_false _ _ Hle) in Hrun.
  repeat (apply bind_inr in Hrun; destruct Hrun as (? & ? & Heq & Hrun);
          cbv beta iota delta [ret] in Heq;
          first [ injection Heq as <- <- | clear Heq ]).
  cbn in Hrun. injection Hrun as <-. split; reflexivity.
Qed.

(** C9: in [display_results] no division is evaluated on a historical yield
    that is not strictly positive.  Every division of a run has a positive
    divisor and the run never ends in [ZeroDivisionError]; when the
    historical yield is at most 0 the ratio shown is 1 and the percent
    difference is 0. *)
Theorem display_results_division_guarded
    (malformed : value -> value -> bool) (crop_rules profit_rules : list (list rule))
    (prediction_result : value) (hr : historical_result) (inputs : value) (s : proc) :
  let run :=
    display_results malformed crop_rules profit_rules prediction_result hr inputs s in
  (exists new,
      trace (snd run) = trace s ++ new /\ Forall positive_divisor new) /\
  fst run <> inl ZeroDivisionError /\
  (forall d, historical_yield hr <= 0 -> fst run = inr d ->
             yield_ratio d = 1 /\ yield_diff_percent d = 0).
Proof.
  intros run.
  destruct (display_results_divides_safely malformed crop_rules profit_rules
              prediction_result hr inputs s) as (new & Ht & Hf & He).
  split; [exists new; split; assumption | split; [exact He |]].
  intros d Hle Hrun.
  exact (display_results_guarded_values _ _ _ _ _ _ _ _ Hle Hrun).
Qed.

Example display_results_without_history :
  exists d,
    fst (display_results never_malformed sample_rules sample_rules
           (complete_result 800) no_history (inputs_of punjab_wheat) fresh) = inr d /\
    user_yield d = 3200 /\ yield_ratio d = 1 /\ yield_diff_percent d = 0 /\
    achieved d = Room_for_Growth.
Proof. eexists. vm_compute. repeat split; reflexivity. Qed.

Example main_shows_results :
  exists d s,
    main never_malformed sample_rules sample_rules disk_with_artifact
      punjab_wheat fresh = (inr (results_shown d), s) /\
    shown_historical_yield d = 4800 /\
    achieved d = Learning_Journey /\
    map fst (crop_recommendations d) = [(1%nat, st_success); (2%nat, st_info)] /\
    length (trace s) = 6%nat.
Proof. eexists. eexists. vm_compute. repeat split; reflexivity. Qed.

(** ** The two predict_yield functions *)

Lemma np_array_list (l : list value) :
  np_array (VList l) =
  match traverse np_array l with
  | inl e => inl e
  | inr items => stack items
  end.
Proof. reflexivity. Qed.

Lemma traverse_numbers (qs : list Q) :
  traverse np_array (map VNum qs) = inr (map (fun q => NdArray [] [VNum q]) qs).
Proof.
  induction qs as [| q qs IH]; [reflexivity |].
  cbn [map traverse]. cbn [np_array].
  change ((fix go (l : list value) : result (list (ndarray value)) :=
             match l with
             | [] => inr []
             | x :: xs =>
                 match np_array x with
                 | inl e => inl e
                 | inr y =>
                     match go xs with
                     | inl e => inl e
                     | inr ys => inr (y :: ys)
                     end
                 end
             end) (map VNum qs))
    with (traverse np_array (map VNum qs)).
  rewrite IH. reflexivity.
Qed.

Lemma scalars_share_shape (a : ndarray value) (qs : list Q) :
  shape a = [] ->
  forallb (fun b => shape_eqb (shape b) (shape a))
    (map (fun q => NdArray [] [VNum q]) qs) = true.
Proof.
  intros Ha. induction qs as [| q qs IH]; [reflexivity |].
  cbn. rewrite IH, Ha. reflexivity.
Qed.

Lemma concat_scalars (qs : list Q) :
  concat (map data (map (fun q => NdArray [] [VNum q]) qs)) = map VNum qs.
Proof.
  induction qs as [| q qs IH]; [reflexivity |].
  cbn. rewrite IH. reflexivity.
Qed.

Lemma stack_scalars (qs : list Q) :
  stack (map (fun q => NdArray [] [VNum q]) qs)
    = inr (NdArray [length qs] (map VNum qs)).
Proof.
  destruct qs as [| q qs]; [reflexivity |].
  pose proof (concat_scalars (q :: qs)) as Hdata.
  pose proof (scalars_share_shape (NdArray [] [VNum q]) qs eq_refl) as Hshape.
  cbn [map] in Hdata. unfold stack. cbn [map].
  rewrite Hshape, Hdata.
  cbn [length shape]. rewrite length_map. reflexivity.
Qed.

Lemma np_array_numbers (qs : list Q) :
  np_array (VList (map VNum qs)) = inr (NdArray [length qs] (map VNum qs)).
Proof. rewrite np_array_list, traverse_numbers. apply stack_scalars. Qed.

Lemma np_array_row_of_numbers (qs : list Q) :
  np_array (VList [VList (map VNum qs)])
    = inr (NdArray [1%nat; length qs] (map VNum qs)).
Proof.
  rewrite np_array_list.
  cbn [traverse]. rewrite np_array_numbers.
  cbn. rewrite app_nil_r. reflexivity.
Qed.

(** C10, as far as it holds: for every model that accepts array-likes (it
    treats its argument as the array [np.asarray] makes of it, as
    scikit-learn estimators do) and every flat sequence of numbers as
    features, [predict_yield] of [model.py] and [predict_yield] of
    [utils/model.py] return the same value or raise the same exception. *)
Theorem predict_yield_agree_on_flat_features
    (model : pyobj) (qs : list Q) (s : proc) :
  accepts_array_likes model ->
  fst (Model.predict_yield model (VList (map VNum qs)) s)
    = fst (UtilsModel.predict_yield model (VList (map VNum qs)) s).
Proof.
  intros Hmodel.
  unfold Model.predict_yield, UtilsModel.predict_yield, bind, lift.
  rewrite np_array_numbers.
  destruct model as [v | predict]; [reflexivity |].
  cbn in Hmodel.
  unfold call_predict, bind, emit, lift, reshape_row.
  cbn [shape data size_of fold_right fst snd].
  rewrite Nat.mul_1_r.
  rewrite (Hmodel _ _ (np_array_row_of_numbers qs)).
  destruct (predict _); reflexivity.
Qed.

Lemma row_sum_regressor_accepts_array_likes :
  accepts_array_likes row_sum_regressor.
Proof.
  intros v a Hv. rewrite Hv. reflexivity.
Qed.

Lemma predict_yield_agree_on_flat_features_witness :
  accepts_array_likes row_sum_regressor /\
  fst (Model.predict_yield row_sum_regressor (VList [VNum 5; VNum 6]) fresh)
    = fst (UtilsModel.predict_yield row_sum_regressor (VList [VNum 5; VNum 6]) fresh).
Proof.
  split; [exact row_sum_regressor_accepts_array_likes |].
  exact (predict_yield_agree_on_flat_features row_sum_regressor [5; 6] fresh
           row_sum_regressor_accepts_array_likes).
Defined.

(** C10, as stated for every model and every feature input, does not hold:
    on the single number 5 and a regressor that insists on two dimensions,
    [predict_yield] of [model.py] raises [ValueError] (the list [[5]] has one
    dimension) while [predict_yield] of [utils/model.py] returns 5 (the
    reshaped array has one row and one column). *)
Lemma predict_yield_differ_on_scalar :
  fst (Model.predict_yield row_sum_regressor (VNum 5) fresh) = inl ValueError /\
  fst (UtilsModel.predict_yield row_sum_regressor (VNum 5) fresh) = inr (VNum 5) /\
  fst (Model.predict_yield row_sum_regressor (VNum 5) fresh)
    <> fst (UtilsModel.predict_yield row_sum_regressor (VNum 5) fresh).
Proof.
  assert (H1 : fst (Model.predict_yield row_sum_regressor (VNum 5) fresh)
               = inl ValueError) by (vm_compute; reflexivity).
  assert (H2 : fst (UtilsModel.predict_yield row_sum_regressor (VNum 5) fresh)
               = inr (VNum 5)) by (vm_compute; reflexivity).
  split; [exact H1 | split; [exact H2 |]].
  rewrite H1, H2. discriminate.
Qed.

(** ** Further properties of the historical reference and the tables *)

(** Split membership in a literal list into its cases. *)
Ltac list_cases H :=
  repeat (apply elem_of_cons in H; destruct H as [H | H]);
  [ .. | apply elem_of_nil in H; contradiction ].

(** Split a lookup in a literal map into its cases. *)
Ltac map_cases H :=
  repeat (apply lookup_insert_Some in H; destruct H as [[<- <-] | [_ H]]);
  [ .. | rewrite lookup_empty in H; discriminate ].

Lemma historical_entries_positive (state crop : string) (sd : gmap string Q) (y : Q) :
  historical_data !! state = Some sd -> sd !! crop = Some y -> 0 < y.
Proof.
  intros Hs Hc. unfold historical_data in Hs.
  apply elem_of_list_to_map_2 in Hs.
  list_cases Hs; injection Hs as -> ->;
    map_cases Hc; reflexivity.
Qed.

Lemma default_yields_positive (crop : string) (y : Q) :
  default_yields !! crop = Some y -> 0 < y.
Proof.
  intros Hd. unfold default_yields in Hd.
  apply elem_of_list_to_map_2 in Hd.
  list_cases Hd; injection Hd as -> ->; reflexivity.
Qed.

Lemma resolved_yield_positive (state crop : string) (y : Q) :
  resolves state crop y -> 0 < y.
Proof.
  intros [sd y' Hs Hc | y' _ Hd | _ _].
  - exact (historical_entries_positive _ _ _ _ Hs Hc).
  - exact (default_yields_positive _ _ Hd).
  - reflexivity.
Qed.

(** The historical yield of every (state, crop) pair is strictly positive:
    every table entry is, and so is the global default. *)
Theorem historical_yield_positive (state crop : string) :
  0 < historical_yield (get_historical_prediction state crop).
Proof.
  apply (resolved_yield_positive state crop).
  apply historical_yield_resolves.
Qed.

(** A reliability of 70 tells that the yield is no historical figure: it is
    the crop's default, or 2500 for a crop without one. *)
Theorem low_reliability_means_default (state crop : string) :
  reliability (get_historical_prediction state crop) = 70 ->
  historical_yield (get_historical_prediction state crop)
    = dict_get default_yields crop 2500.
Proof.
  unfold get_historical_prediction, dict_mem. cbn [reliability historical_yield].
  destruct (historical_data !! state) as [sd |] eqn:Hs.
  - discriminate.
  - intros _. rewrite (dict_get_None _ _ _ Hs).
    apply dict_get_None, lookup_empty.
Qed.

Lemma low_reliability_means_default_witness :
  historical_yield (get_historical_prediction "Ladakh" "Rice")
    = dict_get default_yields "Rice" 2500.
Proof.
  apply (low_reliability_means_default "Ladakh" "Rice"). reflexivity.
Defined.

Lemma append_assoc (a b c : string) : (a +:+ b) +:+ c = a +:+ (b +:+ c).
Proof.
  induction a as [| ch a IH]; [reflexivity |].
  change (String ch ((a +:+ b) +:+ c) = String ch (a +:+ (b +:+ c))).
  f_equal. exact IH.
Qed.

Lemma append_empty (a : string) : a +:+ "" = a.
Proof.
  induction a as [| ch a IH]; [reflexivity |].
  change (String ch (a +:+ "") = String ch a).
  f_equal. exact IH.
Qed.

(** The source text of every lookup names the crop and the state it was
    asked for, also when the figure is a default. *)
Theorem data_source_names_crop_and_state (state crop : string) :
  mentions (data_source (get_historical_prediction state crop)) crop /\
  mentions (data_source (get_historical_prediction state crop)) state.
Proof.
  cbn [get_historical_prediction data_source]. split.
  - exists "Average yield data for ", (" in " +:+ state). reflexivity.
  - exists ("Average yield data for " +:+ crop +:+ " in "), "".
    rewrite append_empty, !append_assoc. reflexivity.
Qed.

(** Every state with historical yields can be chosen in the sidebar and has
    a list of major crops. *)
Theorem history_states_are_known (state : string) :
  is_Some (historical_data !! state) ->
  is_Some (INDIAN_STATES !! state) /\ is_Some (STATE_MAJOR_CROPS !! state).
Proof.
  intros [sd Hs]. unfold historical_data in Hs.
  apply elem_of_list_to_map_2 in Hs.
  list_cases Hs; injection Hs as -> _; split; vm_compute; eauto.
Qed.

Lemma history_states_are_known_witness :
  is_Some (INDIAN_STATES !! "Punjab") /\ is_Some (STATE_MAJOR_CROPS !! "Punjab").
Proof.
  apply (history_states_are_known "Punjab"). vm_compute. eauto.
Defined.

(** Every state with a list of major crops can be chosen in the sidebar. *)
Theorem major_crop_states_are_selectable (state : string) (crops : list string) :
  STATE_MAJOR_CROPS !! state = Some crops ->
  is_Some (INDIAN_STATES !! state) /\ length crops = 4%nat.
Proof.
  intros Hs. unfold STATE_MAJOR_CROPS in Hs.
  apply elem_of_list_to_map_2 in Hs.
  list_cases Hs; injection Hs as -> ->; split; vm_compute; eauto.
Qed.

Lemma major_crop_states_are_selectable_witness :
  is_Some (INDIAN_STATES !! "Kerala") /\
  length ["Rice"; "Coconut"; "Spices"; "Rubber"] = 4%nat.
Proof.
  apply (major_crop_states_are_selectable "Kerala"). reflexivity.
Defined.

(** Every crop with a soil preference is a selectable crop with climate
    requirements, and its pH range is a proper interval inside the range of
    the soil pH slider. *)
Theorem soil_preferences_well_formed (crop : string) (p : soil_preference) :
  CROP_SOIL_PREFERENCES !! crop = Some p ->
  crop ∈ CROP_TYPES /\
  is_Some (CROP_CLIMATE_REQUIREMENTS !! crop) /\
  4 <= fst (ph_range p) /\ fst (ph_range p) < snd (ph_range p) /\
  snd (ph_range p) <= 9.
Proof.
  intros Hp. unfold CROP_SOIL_PREFERENCES in Hp.
  apply elem_of_list_to_map_2 in Hp.
  list_cases Hp; injection Hp as -> ->;
    (split; [unfold CROP_TYPES; set_solver |]);
    (split; [vm_compute; eauto |]);
    cbn [ph_range fst snd]; repeat split; discriminate.
Qed.

Lemma soil_preferences_well_formed_witness :
  "Wheat" ∈ CROP_TYPES /\
  is_Some (CROP_CLIMATE_REQUIREMENTS !! "Wheat") /\
  4 <= 6.0 /\ 6.0 < 7.5 /\ 7.5 <= 9.
Proof.
  apply (soil_preferences_well_formed "Wheat"
           {| soil_types := ["Loam"; "Clay Loam"; "Sandy Loam"];
              ph_range := (6.0, 7.5);
              drainage := "Well drained" |}).
  reflexivity.
Defined.

(** The climate requirements are proper intervals, and the rainfall a crop
    asks for lies inside the range of the rainfall slider. *)
Theorem climate_requirements_well_formed (crop : string) (c : climate_requirement) :
  CROP_CLIMATE_REQUIREMENTS !! crop = Some c ->
  fst (temperature_range c) < snd (temperature_range c) /\
  snd (temperature_range c) <= 40 /\
  200 <= fst (rainfall_range c) /\
  fst (rainfall_range c) < snd (rainfall_range c) /\
  snd (rainfall_range c) <= 3000.
Proof.
  intros Hc. unfold CROP_CLIMATE_REQUIREMENTS in Hc.
  apply elem_of_list_to_map_2 in Hc.
  list_cases Hc; injection Hc as _ ->;
    cbn [temperature_range rainfall_range fst snd]; repeat split; discriminate.
Qed.

Lemma climate_requirements_well_formed_witness :
  20 < 35 /\ 35 <= 40 /\ 200 <= 1000 /\ 1000 < 2000 /\ 2000 <= 3000.
Proof.
  apply (climate_requirements_well_formed "Rice"
           {| temperature_range := (20, 35); rainfall_range := (1000, 2000);
              humidity := "High"; season := "Kharif" |}).
  reflexivity.
Defined.

(** ** The input mapping *)

(** What [preprocess_inputs] packs can be read back under its five keys, and
    under no other key. *)
Theorem preprocess_inputs_round_trip
    (state crop : string) (rainfall temperature soil_ph : Q) (k : string) :
  let inputs := preprocess_inputs state rainfall temperature soil_ph crop in
  getitem inputs "state" = inr (VStr state) /\
  getitem inputs "rainfall" = inr (VNum rainfall) /\
  getitem inputs "temperature" = inr (VNum temperature) /\
  getitem inputs "soil_ph" = inr (VNum soil_ph) /\
  getitem inputs "crop_type" = inr (VStr crop) /\
  (k ∉ ["state"; "rainfall"; "temperature"; "soil_ph"; "crop_type"] ->
   getitem inputs k = inl KeyError).
Proof.
  intros inputs. repeat (split; [reflexivity |]).
  intros Hk. unfold inputs, preprocess_inputs. cbn [getitem assoc].
  repeat match goal with
  | |- context [String.eqb k ?key] =>
      destruct (String.eqb_spec k key) as [-> | _];
        [exfalso; apply Hk; set_solver |]
  end.
  reflexivity.
Qed.

(** ** Numbering of the advisory records *)

Lemma enumerate_fst {A} (start : nat) (l : list A) :
  map fst (enumerate start l) = seq start (length l).
Proof.
  revert start. induction l as [| x l IH]; intros start; cbn;
    [reflexivity | rewrite IH; reflexivity].
Qed.

Lemma enumerate_snd {A} (start : nat) (l : list A) :
  map snd (enumerate start l) = l.
Proof.
  revert start. induction l as [| x l IH]; intros start; cbn;
    [reflexivity | rewrite IH; reflexivity].
Qed.

(** The advisory records are shown in the order they were produced, each
    once, numbered 1, 2, ..., n, each with its own message and the widget
    its severity selects. *)
Theorem numbered_keeps_order (recs : list AdvisoryRecord) :
  map (fun line => fst (fst line)) (numbered recs) = seq 1 (length recs) /\
  map snd (numbered recs) = map message recs /\
  map (fun line => snd (fst line)) (numbered recs) = map widget_of recs.
Proof.
  unfold numbered. rewrite !List.map_map.
  rewrite <- (enumerate_fst 1 recs).
  split; [| split].
  - apply map_ext. intros [i rec]. reflexivity.
  - rewrite <- (enumerate_snd 1 recs) at 2. rewrite List.map_map.
    apply map_ext. intros [i rec]. reflexivity.
  - rewrite <- (enumerate_snd 1 recs) at 2. rewrite List.map_map.
    apply map_ext. intros [i rec]. reflexivity.
Qed.

(** ** The two predict_yield functions: calls and failures *)

(** Neither [predict_yield] retries or hides a failure of the artifact: when
    [predict] raises on the argument it is given, the same exception comes
    out, after exactly one call. *)
Theorem predict_yield_propagates_failure
    (predict : value -> result value) (features : value) (a : ndarray value)
    (e : exn) (s : proc) :
  np_array features = inr a ->
  predict (VList [features]) = inl e ->
  predict (VArr (reshape_row a)) = inl e ->
  Model.predict_yield (Estimator predict) features s
    = (inl e, with_trace s (trace s ++ [EPredict (VList [features])])) /\
  UtilsModel.predict_yield (Estimator predict) features s
    = (inl e, with_trace s (trace s ++ [EPredict (VArr (reshape_row a))])).
Proof.
  intros Ha H1 H2.
  unfold Model.predict_yield, UtilsModel.predict_yield, call_predict, bind, lift, emit.
  rewrite Ha. cbn. rewrite H1, H2. split; reflexivity.
Qed.

Lemma predict_yield_propagates_failure_witness :
  Model.predict_yield row_sum_regressor (VList [VStr "wet"]) fresh
    = (inl TypeError,
       with_trace fresh (trace fresh ++ [EPredict (VList [VList [VStr "wet"]])])) /\
  UtilsModel.predict_yield row_sum_regressor (VList [VStr "wet"]) fresh
    = (inl TypeError,
       with_trace fresh
         (trace fresh ++ [EPredict (VArr (reshape_row (NdArray [1%nat] [VStr "wet"])))])).
Proof.
  apply (predict_yield_propagates_failure _ (VList [VStr "wet"])
           (NdArray [1%nat] [VStr "wet"]) TypeError fresh); reflexivity.
Defined.

(** An artifact that answers with an empty list of predictions makes both
    [predict_yield] functions raise [IndexError]; an object without a
    [predict] method makes them raise [AttributeError] without any call. *)
Theorem predict_yield_needs_a_prediction
    (predict : value -> result value) (v features : value) (a : ndarray value)
    (s : proc) :
  np_array features = inr a ->
  predict (VList [features]) = inr (VList []) ->
  predict (VArr (reshape_row a)) = inr (VList []) ->
  fst (Model.predict_yield (Estimator predict) features s) = inl IndexError /\
  fst (UtilsModel.predict_yield (Estimator predict) features s) = inl IndexError /\
  Model.predict_yield (Plain v) features s = (inl AttributeError, s) /\
  UtilsModel.predict_yield (Plain v) features s = (inl AttributeError, s).
Proof.
  intros Ha H1 H2.
  unfold Model.predict_yield, UtilsModel.predict_yield, call_predict, bind, lift, emit.
  rewrite Ha. cbn. rewrite H1, H2. repeat split; reflexivity.
Qed.

Lemma predict_yield_needs_a_prediction_witness :
  fst (Model.predict_yield (Estimator (fun _ => inr (VList []))) (VNum 5) fresh)
    = inl IndexError /\
  fst (UtilsModel.predict_yield (Estimator (fun _ => inr (VList []))) (VNum 5) fresh)
    = inl IndexError /\
  Model.predict_yield (Plain (VStr "not a model")) (VNum 5) fresh
    = (inl AttributeError, fresh) /\
  UtilsModel.predict_yield (Plain (VStr "not a model")) (VNum 5) fresh
    = (inl AttributeError, fresh).
Proof.
  apply (predict_yield_needs_a_prediction (fun _ => inr (VList []))
           (VStr "not a model") (VNum 5) (NdArray [] [VNum 5]) fresh);
    reflexivity.
Defined.

(** ** Loading and caching the model *)

Lemma initialize_model_cached (fs : gmap string file) (s : proc) (m : pyobj) :
  model_cache s = Some m -> initialize_model fs s = (inr m, s).
Proof.
  intros Hc. unfold initialize_model, bind, get_cache. rewrite Hc. reflexivity.
Qed.

Lemma initialize_model_uncached (fs : gmap string file) (s : proc) :
  model_cache s = None ->
  initialize_model fs s =
  match fs !! "trained_model.pkl" with
  | None => (inl FileNotFoundError, s)
  | Some (Unloadable raises) => (inl (raises pickle_load), s)
  | Some (Pickle o) => (inr o, with_cache s o)
  end.
Proof.
  intros Hc.
  unfold initialize_model, UtilsModel.load_model, read_pickle, bind, get_cache.
  rewrite Hc.
  destruct (fs !! "trained_model.pkl") as [[raises | o] |]; reflexivity.
Qed.

Lemma initialize_model_inr (fs : gmap string file) (s s1 : proc) (m : pyobj) :
  initialize_model fs s = (inr m, s1) ->
  model_cache s1 = Some m /\ session_state s1 = session_state s /\
  trace s1 = trace s.
Proof.
  intros Hinit. destruct (model_cache s) as [m0 |] eqn:Hc.
  - rewrite (initialize_model_cached _ _ _ Hc) in Hinit.
    injection Hinit as <- <-. auto.
  - rewrite (initialize_model_uncached _ _ Hc) in Hinit.
    destruct (fs !! "trained_model.pkl") as [[raises | o] |]; try discriminate.
    injection Hinit as <- <-. auto.
Qed.

Lemma initialize_model_inl (fs : gmap string file) (s s1 : proc) (e : exn) :
  initialize_model fs s = (inl e, s1) -> s1 = s.
Proof.
  intros Hinit. destruct (model_cache s) as [m0 |] eqn:Hc.
  - rewrite (initialize_model_cached _ _ _ Hc) in Hinit. discriminate.
  - rewrite (initialize_model_uncached _ _ Hc) in Hinit.
    destruct (fs !! "trained_model.pkl") as [[raises | o] |]; try discriminate;
      injection Hinit as _ <-; reflexivity.
Qed.

Lemma main_load_failure
    (malformed : value -> value -> bool) (crop_rules profit_rules : list (list rule))
    (fs : gmap string file) (w : widgets) (s s1 : proc) (e : exn) :
  initialize_model fs s = (inl e, s1) ->
  main malformed crop_rules profit_rules fs w s = (inl e, s1).
Proof.
  intros Hinit. unfold main. unfold bind at 1. rewrite Hinit. reflexivity.
Qed.

Lemma main_after_load
    (malformed : value -> value -> bool) (crop_rules profit_rules : list (list rule))
    (fs : gmap string file) (w : widgets) (s s1 : proc) (m : pyobj) :
  initialize_model fs s = (inr m, s1) ->
  main malformed crop_rules profit_rules fs w s =
  if is_None m then (inr model_error_shown, s1)
  else
    match predict_and_store m w s1 with
    | (inr true, s2) => (inr prediction_error_shown, s2)
    | (inr false, s2) => show_stored malformed crop_rules profit_rules s2
    | (inl e, s2) => (inl e, s2)
    end.
Proof.
  intros Hinit.
  change (main malformed crop_rules profit_rules fs w s)
    with (bind (initialize_model fs)
            (fun model =>
               if is_None model then ret model_error_shown
               else
                 let! failed := predict_and_store model w in
                 if (failed : bool) then ret prediction_error_shown
                 else show_stored malformed crop_rules profit_rules) s).
  unfold bind at 1. rewrite Hinit.
  destruct (is_None m); [reflexivity |].
  unfold bind at 1.
  destruct (predict_and_store m w s1) as [[e | [|]] s2]; reflexivity.
Qed.

(** The model is loaded once per process: after a call of
    [initialize_model] that returns, the model is cached, the session and
    the trace are untouched, and every later call returns the same model
    whatever is on disk by then. *)
Theorem initialize_model_loads_once
    (fs : gmap string file) (s s1 : proc) (m : pyobj) :
  initialize_model fs s = (inr m, s1) ->
  model_cache s1 = Some m /\
  session_state s1 = session_state s /\
  trace s1 = trace s /\
  (forall fs', initialize_model fs' s1 = (inr m, s1)).
Proof.
  intros Hinit.
  destruct (initialize_model_inr fs s s1 m Hinit) as (Hc1 & Hss & Ht).
  repeat split; try assumption.
  intros fs'. apply initialize_model_cached. exact Hc1.
Qed.

Lemma initialize_model_loads_once_witness :
  model_cache (with_cache fresh complete_artifact) = Some complete_artifact /\
  session_state (with_cache fresh complete_artifact) = session_state fresh /\
  trace (with_cache fresh complete_artifact) = trace fresh /\
  (forall fs', initialize_model fs' (with_cache fresh complete_artifact)
               = (inr complete_artifact, with_cache fresh complete_artifact)).
Proof.
  apply (initialize_model_loads_once disk_with_artifact fresh). reflexivity.
Defined.

(** A load that raises caches nothing and changes nothing: the exception
    escapes [main] with the process as it was, so the next run tries the
    disk again. *)
Theorem load_failure_not_cached
    (malformed : value -> value -> bool) (crop_rules profit_rules : list (list rule))
    (fs : gmap string file) (w : widgets) (s s1 : proc) (e : exn) :
  initialize_model fs s = (inl e, s1) ->
  s1 = s /\
  main malformed crop_rules profit_rules fs w s = (inl e, s).
Proof.
  intros Hinit.
  pose proof (initialize_model_inl fs s s1 e Hinit) as ->.
  split; [reflexivity |].
  exact (main_load_failure _ _ _ _ w _ _ _ Hinit).
Qed.

Lemma load_failure_not_cached_witness :
  fresh = fresh /\
  main never_malformed sample_rules sample_rules disk_with_garbage punjab_wheat fresh
    = (inl UnpicklingError, fresh).
Proof.
  apply (load_failure_not_cached never_malformed sample_rules sample_rules
           disk_with_garbage punjab_wheat fresh fresh UnpicklingError).
  reflexivity.
Defined.

(** A pickle that holds [None] is cached like a model: the run shows the
    model error without predicting or storing anything, and so does every
    later run of the process, whatever the disk holds by then. *)
Theorem pickled_None_blocks_dashboard
    (malformed : value -> value -> bool) (crop_rules profit_rules : list (list rule))
    (fs : gmap string file) (w : widgets) (s : proc) :
  model_cache s = None ->
  fs !! "trained_model.pkl" = Some (Pickle (Plain VNone)) ->
  main malformed crop_rules profit_rules fs w s
    = (inr model_error_shown, with_cache s (Plain VNone)) /\
  (forall fs' w',
     main malformed crop_rules profit_rules fs' w' (with_cache s (Plain VNone))
       = (inr model_error_shown, with_cache s (Plain VNone))).
Proof.
  intros Hc Hf.
  assert (Hinit : initialize_model fs s = (inr (Plain VNone), with_cache s (Plain VNone))).
  { rewrite (initialize_model_uncached _ _ Hc), Hf. reflexivity. }
  split.
  - rewrite (main_after_load _ _ _ _ _ _ _ _ Hinit). reflexivity.
  - intros fs' w'.
    rewrite (main_after_load _ _ _ fs' w' _ (with_cache s (Plain VNone)) (Plain VNone));
      [reflexivity |].
    apply initialize_model_cached. reflexivity.
Qed.

Lemma pickled_None_blocks_dashboard_witness :
  main never_malformed sample_rules sample_rules disk_with_none punjab_wheat fresh
    = (inr model_error_shown, with_cache fresh (Plain VNone)) /\
  (forall fs' w',
     main never_malformed sample_rules sample_rules fs' w'
       (with_cache fresh (Plain VNone))
       = (inr model_error_shown, with_cache fresh (Plain VNone))).
Proof.
  apply (pickled_None_blocks_dashboard never_malformed sample_rules sample_rules
           disk_with_none punjab_wheat fresh); reflexivity.
Defined.

(** ** What a run of main predicts, stores and shows *)

Lemma predict_calls_app (t1 t2 : list event) :
  predict_calls (t1 ++ t2) = predict_calls t1 ++ predict_calls t2.
Proof.
  induction t1 as [| [X | a b] t1 IH]; cbn; [reflexivity | | exact IH].
  rewrite IH. reflexivity.
Qed.

Lemma ret_only_divides {A} (x : A) : only_divides (ret x).
Proof.
  intros s. exists []. cbn. rewrite app_nil_r.
  split; [destruct s; reflexivity | reflexivity].
Qed.

Lemma lift_only_divides {A} (r : result A) : only_divides (lift r).
Proof.
  intros s. exists []. cbn. rewrite app_nil_r.
  split; [destruct s; reflexivity | reflexivity].
Qed.

Lemma truediv_only_divides (a b : Q) : only_divides (truediv a b).
Proof.
  intros s. exists [EDiv a b]. unfold truediv, bind, emit. cbn.
  destruct (Qeq_bool b 0); split; reflexivity.
Qed.

Lemma bind_only_divides {A B} (c : M A) (k : A -> M B) :
  only_divides c -> (forall x, only_divides (k x)) -> only_divides (bind c k).
Proof.
  intros Hc Hk s. unfold bind.
  destruct (Hc s) as (n1 & Hs1 & Hp1).
  destruct (c s) as [[e | x] s1]; cbn in Hs1; subst s1.
  - exists n1. split; [reflexivity | exact Hp1].
  - destruct (Hk x (with_trace s (trace s ++ n1))) as (n2 & Hs2 & Hp2).
    exists (n1 ++ n2). rewrite Hs2. cbn. rewrite app_assoc.
    split; [reflexivity |].
    rewrite predict_calls_app, Hp1, Hp2. reflexivity.
Qed.

Lemma display_results_only_divides
    (malformed : value -> value -> bool) (crop_rules profit_rules : list (list rule))
    (prediction_result : value) (hr : historical_result) (inputs : value) :
  only_divides
    (display_results malformed crop_rules profit_rules prediction_result hr inputs).
Proof.
  unfold display_results, num_field.
  destruct (gt (historical_yield hr) 0);
    repeat first
      [ apply truediv_only_divides
      | apply ret_only_divides
      | apply lift_only_divides
      | apply bind_only_divides; [| intros ?] ].
Qed.

Lemma show_stored_only_divides
    (malformed : value -> value -> bool) (crop_rules profit_rules : list (list rule)) :
  only_divides (show_stored malformed crop_rules profit_rules).
Proof.
  intros s. unfold show_stored, bind at 1, get_session.
  destruct (session_state s) as [ss |].
  - apply bind_only_divides; [apply display_results_only_divides |].
    intros d. apply ret_only_divides.
  - apply ret_only_divides.
Qed.

Lemma predict_and_store_idle (m : pyobj) (w : widgets) (s : proc) :
  predict_button w = false -> predict_and_store m w s = (inr false, s).
Proof. intros Hb. unfold predict_and_store. rewrite Hb. reflexivity. Qed.

Lemma predict_and_store_pressed
    (predict : value -> result value) (w : widgets) (s : proc) :
  predict_button w = true ->
  predict_and_store (Estimator predict) w s =
  let s2 := with_trace s (trace s ++ [EPredict (features_row w)]) in
  match predict (features_row w) with
  | inl e => (inl e, s2)
  | inr out =>
      match getitem0 out with
      | inl e => (inl e, s2)
      | inr r =>
          if value_is_None r then (inr true, s2)
          else (inr false, with_session s2 (stored_session w r))
      end
  end.
Proof.
  intros Hb. unfold predict_and_store. rewrite Hb.
  unfold bind at 1.
  change (UtilsModel.predict_yield (Estimator predict) (inputs_of w) s)
    with (estimate (Estimator predict) w s).
  rewrite estimate_run. fold (features_row w).
  destruct (predict (features_row w)) as [e | out]; [reflexivity |].
  destruct (getitem0 out) as [e | r]; [reflexivity |].
  destruct (value_is_None r); reflexivity.
Qed.

Lemma predict_and_store_no_estimator (v : value) (w : widgets) (s : proc) :
  predict_button w = true ->
  predict_and_store (Plain v) w s = (inl AttributeError, s).
Proof. intros Hb. unfold predict_and_store. rewrite Hb. reflexivity. Qed.

Lemma main_idle
    (malformed : value -> value -> bool) (crop_rules profit_rules : list (list rule))
    (fs : gmap string file) (w : widgets) (s : proc) (m : pyobj) :
  model_cache s = Some m ->
  is_None m = false ->
  predict_button w = false ->
  main malformed crop_rules profit_rules fs w s
    = show_stored malformed crop_rules profit_rules s.
Proof.
  intros Hc Hm Hb.
  rewrite (main_after_load _ _ _ fs w s s m (initialize_model_cached _ _ _ Hc)).
  rewrite Hm, (predict_and_store_idle _ _ _ Hb). reflexivity.
Qed.

(** Without a press of the button a run ignores the sidebar and the disk:
    with a model cached it shows what the session holds, the stored
    prediction for the inputs it was made for, or nothing when the session
    is empty. *)
Theorem main_without_button_shows_stored
    (malformed : value -> value -> bool) (crop_rules profit_rules : list (list rule))
    (fs : gmap string file) (w : widgets) (s : proc) (m : pyobj) :
  model_cache s = Some m ->
  is_None m = false ->
  predict_button w = false ->
  main malformed crop_rules profit_rules fs w s
    = show_stored malformed crop_rules profit_rules s /\
  (forall fs' w', predict_button w' = false ->
     main malformed crop_rules profit_rules fs' w' s
       = main malformed crop_rules profit_rules fs w s) /\
  (session_state s = None ->
     main malformed crop_rules profit_rules fs w s = (inr nothing_to_show, s)).
Proof.
  intros Hc Hm Hb.
  assert (Hmain : forall fs' w', predict_button w' = false ->
            main malformed crop_rules profit_rules fs' w' s
              = show_stored malformed crop_rules profit_rules s).
  { intros fs' w' Hb'.
    rewrite (main_after_load _ _ _ fs' w' s s m (initialize_model_cached _ _ _ Hc)).
    rewrite Hm, (predict_and_store_idle _ _ _ Hb'). reflexivity. }
  split; [exact (Hmain fs w Hb) | split].
  - intros fs' w' Hb'. rewrite (Hmain fs' w' Hb'), (Hmain fs w Hb). reflexivity.
  - intros Hss. rewrite (Hmain fs w Hb).
    unfold show_stored, bind, get_session. rewrite Hss. reflexivity.
Qed.

Lemma main_without_button_shows_stored_witness :
  let s := with_cache fresh complete_artifact in
  let idle := {| w_state := "Kerala"; w_rainfall := 2000; w_temperature := 30;
                 w_soil_ph := 5; w_crop_type := "Rice"; predict_button := false |} in
  main never_malformed sample_rules sample_rules ∅ idle s
    = show_stored never_malformed sample_rules sample_rules s /\
  (forall fs' w', predict_button w' = false ->
     main never_malformed sample_rules sample_rules fs' w' s
       = main never_malformed sample_rules sample_rules ∅ idle s) /\
  (session_state s = None ->
     main never_malformed sample_rules sample_rules ∅ idle s
       = (inr nothing_to_show, s)).
Proof.
  intros s idle.
  apply (main_without_button_shows_stored never_malformed sample_rules sample_rules
           ∅ idle s complete_artifact); reflexivity.
Defined.

(** A run calls the artifact at most once, and only when the button was
    pressed; the call is then on the one-row array holding the inputs of
    the sidebar. *)
Theorem main_predicts_at_most_once
    (malformed : value -> value -> bool) (crop_rules profit_rules : list (list rule))
    (fs : gmap string file) (w : widgets) (s : proc) :
  exists new,
    trace (snd (main malformed crop_rules profit_rules fs w s)) = trace s ++ new /\
    (predict_calls new = [] \/
     (predict_button w = true /\ predict_calls new = [features_row w])).
Proof.
  destruct (initialize_model fs s) as [[e | m] s1] eqn:Hinit.
  - rewrite (main_load_failure malformed crop_rules profit_rules fs w s s1 e Hinit).
    rewrite (initialize_model_inl fs s s1 e Hinit).
    exists []. cbn. rewrite app_nil_r. auto.
  - destruct (initialize_model_inr fs s s1 m Hinit) as (_ & _ & Ht).
    rewrite (main_after_load _ _ _ _ w _ _ _ Hinit).
    destruct (is_None m).
    { exists []. cbn. rewrite Ht, app_nil_r. auto. }
    destruct (predict_button w) eqn:Hb.
    + destruct m as [v | predict].
      * rewrite (predict_and_store_no_estimator _ _ _ Hb).
        exists []. cbn. rewrite Ht, app_nil_r. auto.
      * rewrite (predict_and_store_pressed _ _ _ Hb). cbv zeta.
        destruct (predict (features_row w)) as [e | out];
          [exists [EPredict (features_row w)]; cbn; rewrite Ht; auto |].
        destruct (getitem0 out) as [e | r];
          [exists [EPredict (features_row w)]; cbn; rewrite Ht; auto |].
        destruct (value_is_None r);
          [exists [EPredict (features_row w)]; cbn; rewrite Ht; auto |].
        destruct (show_stored_only_divides malformed crop_rules profit_rules
                    (with_session
                       (with_trace s1 (trace s1 ++ [EPredict (features_row w)]))
                       (stored_session w r))) as (new & Hs & Hp).
        exists (EPredict (features_row w) :: new).
        rewrite Hs. cbn. rewrite Ht, <- app_assoc. cbn.
        rewrite Hp. auto.
    + rewrite (predict_and_store_idle _ _ _ Hb).
      destruct (show_stored_only_divides malformed crop_rules profit_rules s1)
        as (new & Hs & Hp).
      exists new. rewrite Hs. cbn. rewrite Ht. auto.
Qed.

(** A prediction is stored in the session before anything is displayed: once
    the artifact has answered with a result that is not [None], the session
    holds this result with the historical reference and the inputs of the
    press, whether or not displaying it succeeds. *)
Theorem prediction_stored_before_display
    (malformed : value -> value -> bool) (crop_rules profit_rules : list (list rule))
    (fs : gmap string file) (w : widgets) (s s1 : proc)
    (predict : value -> result value) (out r : value) :
  initialize_model fs s = (inr (Estimator predict), s1) ->
  predict_button w = true ->
  predict (features_row w) = inr out ->
  getitem0 out = inr r ->
  value_is_None r = false ->
  session_state (snd (main malformed crop_rules profit_rules fs w s))
    = Some (stored_session w r) /\
  model_cache (snd (main malformed crop_rules profit_rules fs w s))
    = Some (Estimator predict).
Proof.
  intros Hinit Hb Hp Hout Hr.
  destruct (initialize_model_inr fs s s1 _ Hinit) as (Hc & _ & _).
  rewrite (main_after_load _ _ _ _ w _ _ _ Hinit). cbn [is_None].
  rewrite (predict_and_store_pressed _ _ _ Hb). cbv zeta.
  rewrite Hp, Hout, Hr.
  destruct (show_stored_only_divides malformed crop_rules profit_rules
              (with_session
                 (with_trace s1 (trace s1 ++ [EPredict (features_row w)]))
                 (stored_session w r))) as (new & Hs & _).
  rewrite Hs. cbn. split; [reflexivity | exact Hc].
Qed.

Lemma prediction_stored_before_display_witness :
  session_state (snd (main never_malformed sample_rules sample_rules
                        disk_with_artifact punjab_wheat fresh))
    = Some (stored_session punjab_wheat (complete_result 800)) /\
  model_cache (snd (main never_malformed sample_rules sample_rules
                      disk_with_artifact punjab_wheat fresh))
    = Some complete_artifact.
Proof.
  unfold complete_artifact.
  apply (prediction_stored_before_display never_malformed sample_rules sample_rules
           disk_with_artifact punjab_wheat fresh (with_cache fresh complete_artifact)
           (fun X =>
              match only_row X with
              | inl e => inl e
              | inr row =>
                  match getitem row "rainfall" with
                  | inr (VNum r) => inr (VList [complete_result r])
                  | _ => inl ValueError
                  end
              end)
           (VList [complete_result 800]) (complete_result 800));
    reflexivity.
Defined.

(** When the artifact's first prediction is [None], the run shows the
    prediction error and leaves the session as it was: an earlier stored
    prediction stays, and nothing of the failed one is kept. *)
Theorem none_prediction_keeps_session
    (malformed : value -> value -> bool) (crop_rules profit_rules : list (list rule))
    (fs : gmap string file) (w : widgets) (s s1 : proc)
    (predict : value -> result value) (out : value) :
  initialize_model fs s = (inr (Estimator predict), s1) ->
  predict_button w = true ->
  predict (features_row w) = inr out ->
  getitem0 out = inr VNone ->
  main malformed crop_rules profit_rules fs w s
    = (inr prediction_error_shown,
       with_trace s1 (trace s ++ [EPredict (features_row w)])) /\
  session_state (snd (main malformed crop_rules profit_rules fs w s))
    = session_state s.
Proof.
  intros Hinit Hb Hp Hout.
  destruct (initialize_model_inr fs s s1 _ Hinit) as (_ & Hss & Ht).
  rewrite (main_after_load _ _ _ _ w _ _ _ Hinit). cbn [is_None].
  rewrite (predict_and_store_pressed _ _ _ Hb). cbv zeta.
  rewrite Hp, Hout, Ht. cbn. split; [reflexivity | exact Hss].
Qed.

Lemma none_prediction_keeps_session_witness :
  let silent := Estimator (fun _ => inr (VList [VNone])) in
  let s := with_cache fresh silent in
  main never_malformed sample_rules sample_rules ∅ punjab_wheat s
    = (inr prediction_error_shown,
       with_trace s (trace s ++ [EPredict (features_row punjab_wheat)])) /\
  session_state (snd (main never_malformed sample_rules sample_rules ∅ punjab_wheat s))
    = session_state s.
Proof.
  intros silent s.
  apply (none_prediction_keeps_session never_malformed sample_rules sample_rules
           ∅ punjab_wheat s s (fun _ => inr (VList [VNone])) (VList [VNone]));
    reflexivity.
Defined.

(** A plain regressor does not fit the dashboard: when the artifact's first
    prediction is a bare number, the run stores it and then raises while
    displaying it, and every later run without a press raises again on the
    stored number. *)
Theorem numeric_prediction_breaks_display
    (malformed : value -> value -> bool) (crop_rules profit_rules : list (list rule))
    (fs : gmap string file) (w : widgets) (s s1 : proc)
    (predict : value -> result value) (out : value) (q : Q) :
  initialize_model fs s = (inr (Estimator predict), s1) ->
  predict_button w = true ->
  predict (features_row w) = inr out ->
  getitem0 out = inr (VNum q) ->
  exists e s2,
    main malformed crop_rules profit_rules fs w s = (inl e, s2) /\
    session_state s2 = Some (stored_session w (VNum q)) /\
    (forall fs' w', predict_button w' = false ->
       main malformed crop_rules profit_rules fs' w' s2 = (inl e, s2)).
Proof.
  intros Hinit Hb Hp Hout.
  destruct (initialize_model_inr fs s s1 _ Hinit) as (Hc & _ & _).
  set (s2 := with_session
               (with_trace s1 (trace s1 ++ [EPredict (features_row w)]))
               (stored_session w (VNum q))).
  assert (Hshow : show_stored malformed crop_rules profit_rules s2 = (inl TypeError, s2))
    by reflexivity.
  exists TypeError, s2. split; [| split; [reflexivity |]].
  - rewrite (main_after_load _ _ _ _ w _ _ _ Hinit). cbn [is_None].
    rewrite (predict_and_store_pressed _ _ _ Hb). cbv zeta.
    rewrite Hp, Hout. cbn [value_is_None]. exact Hshow.
  - intros fs' w' Hb'.
    rewrite (main_idle malformed crop_rules profit_rules
               fs' w' s2 (Estimator predict) Hc eq_refl Hb').
    exact Hshow.
Qed.

Lemma numeric_prediction_breaks_display_witness :
  exists e s2,
    main never_malformed sample_rules sample_rules
      {["trained_model.pkl" := Pickle (constant_regressor 4000)]} punjab_wheat fresh
      = (inl e, s2) /\
    session_state s2 = Some (stored_session punjab_wheat (VNum 4000)) /\
    (forall fs' w', predict_button w' = false ->
       main never_malformed sample_rules sample_rules fs' w' s2 = (inl e, s2)).
Proof.
  unfold constant_regressor.
  apply (numeric_prediction_breaks_display never_malformed sample_rules sample_rules
           {["trained_model.pkl" := Pickle (constant_regressor 4000)]}
           punjab_wheat fresh (with_cache fresh (constant_regressor 4000))
           (fun _ => inr (VArr (NdArray [1%nat] [VNum 4000])))
           (VArr (NdArray [1%nat] [VNum 4000])) 4000);
    reflexivity.
Defined.

(** ** What display_results shows *)

Lemma bind_inr_pair {A B} (c : M A) (k : A -> M B) (s s2 : proc) (y : B) :
  bind c k s = (inr y, s2) ->
  exists x s1, c s = (inr x, s1) /\ k x s1 = (inr y, s2).
Proof.
  unfold bind. destruct (c s) as [[e | x] s1]; [discriminate |].
  intros H. exists x, s1. split; [reflexivity | exact H].
Qed.

Lemma lift_inr {A} (r : result A) (s s1 : proc) (x : A) :
  lift r s = (inr x, s1) -> r = inr x.
Proof. unfold lift. intros [= -> _]. reflexivity. Qed.

Lemma as_num_inr (v : value) (q : Q) : as_num v = inr q -> v = VNum q.
Proof. destruct v; cbn; intros [= ->]; reflexivity. Qed.

Lemma num_field_inr (v : value) (k : string) (s s1 : proc) (q : Q) :
  num_field v k s = (inr q, s1) -> getitem v k = inr (VNum q).
Proof.
  unfold num_field. intros H.
  apply bind_inr_pair in H. destruct H as (x & s0 & Hx & Hq).
  apply lift_inr in Hx. apply lift_inr, as_num_inr in Hq. subst x. exact Hx.
Qed.

Lemma truediv_inr (a b : Q) (s s1 : proc) (x : Q) :
  truediv a b s = (inr x, s1) -> x = a / b.
Proof.
  unfold truediv, bind, emit. cbn.
  destruct (Qeq_bool b 0); cbn; [discriminate |].
  intros [= <- _]. reflexivity.
Qed.

Lemma ratio_inr (u h : Q) (s s1 : proc) (x : Q) :
  (if gt h 0 then truediv u h else ret 1) s = (inr x, s1) ->
  x = if gt h 0 then u / h else 1.
Proof.
  destruct (gt h 0).
  - apply truediv_inr.
  - intros [= <- _]. reflexivity.
Qed.

Lemma percent_inr (u h : Q) (s s1 : proc) (x : Q) :
  (if gt h 0
   then let! q := truediv u h in ret ((q - 1) * 100)
   else ret 0) s = (inr x, s1) ->
  x = if gt h 0 then (u / h - 1) * 100 else 0.
Proof.
  destruct (gt h 0).
  - intros H. apply bind_inr_pair in H. destruct H as (q & s0 & Hq & Hx).
    apply truediv_inr in Hq. subst q. injection Hx as <- _. reflexivity.
  - intros [= <- _]. reflexivity.
Qed.

Lemma market_rate_positive (key : value) (m : Q) :
  market_rate_of key = inr m -> 0 < m.
Proof.
  destruct key as [| q | c | l | d | a]; unfold market_rate_of; intros H;
    try discriminate; injection H as <-; try reflexivity.
  unfold dict_get.
  destruct (crop_market_rates !! c) as [m |] eqn:Hm; [| reflexivity].
  cbn [default].
  unfold crop_market_rates in Hm. apply elem_of_list_to_map_2 in Hm.
  list_cases Hm; injection Hm as -> ->; reflexivity.
Qed.

(** One step of reading a successful run of [display_results] backwards. *)
Ltac invert_display_step H :=
  apply bind_inr in H;
  let x := fresh "x" in
  let s := fresh "s" in
  let E := fresh "E" in
  destruct H as (x & s & E & H);
  first
    [ apply ratio_inr in E
    | apply percent_inr in E
    | apply num_field_inr in E
    | apply truediv_inr in E
    | apply lift_inr in E ].

Lemma display_results_inr
    (malformed : value -> value -> bool) (crop_rules profit_rules : list (list rule))
    (prediction_result : value) (hr : historical_result) (inputs : value)
    (s : proc) (d : display) :
  fst (display_results malformed crop_rules profit_rules prediction_result hr inputs s)
    = inr d ->
  exists u c key m r t p,
    getitem prediction_result "yield" = inr (VNum u) /\
    getitem prediction_result "confidence" = inr (VNum c) /\
    getitem inputs "crop_type" = inr key /\ market_rate_of key = inr m /\
    getitem inputs "rainfall" = inr (VNum r) /\
    getitem inputs "temperature" = inr (VNum t) /\
    getitem inputs "soil_ph" = inr (VNum p) /\
    (forall k, k ∈ result_keys -> exists v, getitem prediction_result k = inr v) /\
    user_yield d = u /\
    shown_historical_yield d = historical_yield hr /\
    confidence d = c /\
    market_rate d = m /\
    user_revenue d = u * m /\
    historical_revenue d = historical_yield hr * m /\
    yield_ratio d = (if gt (historical_yield hr) 0 then u / historical_yield hr else 1) /\
    achieved d = achievement_of (yield_ratio d) /\
    yield_diff d = u - historical_yield hr /\
    yield_diff_percent d
      = (if gt (historical_yield hr) 0
         then (u / historical_yield hr - 1) * 100 else 0) /\
    revenue_diff d = u * m - historical_yield hr * m /\
    acres_revenue d = u * m * 0.4047 /\
    env_values d = [min_of (r / 1500) 1; t / 40; p / 10] /\
    take 2 (action_items d)
      = (if gt u (historical_yield hr)
         then ["Your conditions are great! Focus on maintaining current practices";
               "Consider expanding cultivation area for increased profits"]
         else ["Monitor water supply and plan irrigation carefully";
               "Consider soil health improvement measures"]).
Proof.
  intros H. unfold display_results in H.
  repeat invert_display_step H.
  cbn in H. injection H as <-.
  repeat match goal with
  | E : as_num _ = inr _ |- _ => apply as_num_inr in E
  end.
  subst.
  eexists _, _, _, _, _, _, _.
  repeat (split; [eassumption || reflexivity |]).
  split.
  - intros k Hk. unfold result_keys in Hk.
    list_cases Hk; subst k; eauto.
  - cbn [user_yield shown_historical_yield confidence market_rate user_revenue
         historical_revenue yield_ratio achieved yield_diff yield_diff_percent
         revenue_diff acres_revenue env_values action_items].
    repeat (split; [reflexivity |]).
    destruct (gt _ (historical_yield hr)); reflexivity.
Qed.

Lemma gt_spec (a b : Q) : gt a b = true <-> b < a.
Proof.
  unfold gt. destruct (Qlt_le_dec b a) as [Hlt | Hle].
  - split; [intros _; exact Hlt | reflexivity].
  - split; [discriminate | intros Hlt; exfalso; exact (Qlt_not_le _ _ Hlt Hle)].
Qed.

Lemma gt_quotient (u h c : Q) : 0 < h -> gt (u / h) c = gt u (c * h).
Proof.
  intros Hh.
  destruct (gt u (c * h)) eqn:Hu.
  - apply gt_spec. apply gt_spec in Hu. apply Qlt_shift_div_l; assumption.
  - destruct (gt (u / h) c) eqn:Hq; [| reflexivity].
    apply gt_spec in Hq.
    assert (Hle : u <= c * h).
    { destruct (Qlt_le_dec (c * h) u) as [Hlt | Hle]; [| exact Hle].
      apply gt_spec in Hlt. congruence. }
    exfalso. apply (Qlt_not_le _ _ Hq). apply Qle_shift_div_r; assumption.
Qed.



(** Without a positive historical yield the achievement is Room for Growth
    whatever the predicted yield, with a ratio of 1, while the action items
    still praise the conditions when the predicted yield exceeds the
    reference. *)
Theorem achievement_without_history
    (malformed : value -> value -> bool) (crop_rules profit_rules : list (list rule))
    (prediction_result : value) (hr : historical_result) (inputs : value)
    (s : proc) (d : display) :
  historical_yield hr <= 0 ->
  fst (display_results malformed crop_rules profit_rules prediction_result hr inputs s)
    = inr d ->
  achieved d = Room_for_Growth /\
  (praises d <-> historical_yield hr < user_yield d).
Proof.
  intros Hh Hrun.
  destruct (display_results_inr _ _ _ _ _ _ _ _ Hrun)
    as (u & c & key & m & r & t & p & _ & _ & _ & _ & _ & _ & _ & _ &
        Hu & _ & _ & _ & _ & _ & Hratio & Hach & _ & _ & _ & _ & _ & Hitems).
  rewrite (gt_false _ _ Hh) in Hratio.
  split; [rewrite Hach, Hratio; reflexivity |].
  unfold praises. rewrite Hitems, Hu.
  destruct (gt u (historical_yield hr)) eqn:Hgt.
  - apply gt_spec in Hgt. split; [intros _; exact Hgt | reflexivity].
  - split; [discriminate |].
    intros Hlt. apply gt_spec in Hlt. congruence.
Qed.

Lemma achievement_without_history_witness :
  match fst sample_display_without_history with
  | inr d => achieved d = Room_for_Growth /\ (praises d <-> 0 < user_yield d)
  | inl _ => False
  end.
Proof.
  destruct (fst sample_display_without_history) as [e | d] eqn:E.
  - vm_compute in E. discriminate.
  - apply (achievement_without_history never_malformed sample_rules sample_rules
             (complete_result 800) no_history (inputs_of punjab_wheat) fresh d);
      [discriminate | exact E].
Defined.

(** The revenue difference never points the other way than the yields: the
    market rate is positive, a positive revenue difference is shown only
    when the predicted yield exceeds the historical one, and a negative one
    only when it is below. *)
Theorem revenue_sign_follows_yield
    (malformed : value -> value -> bool) (crop_rules profit_rules : list (list rule))
    (prediction_result : value) (hr : historical_result) (inputs : value)
    (s : proc) (d : display) :
  fst (display_results malformed crop_rules profit_rules prediction_result hr inputs s)
    = inr d ->
  0 < market_rate d /\
  (0 < revenue_diff d -> historical_yield hr < user_yield d) /\
  (revenue_diff d < 0 -> user_yield d < historical_yield hr).
Proof.
  intros Hrun.
  destruct (display_results_inr _ _ _ _ _ _ _ _ Hrun)
    as (u & c & key & m & r & t & p & _ & _ & _ & Hm & _ & _ & _ & _ &
        Hu & _ & _ & Hrate & _ & _ & _ & _ & _ & _ & Hrd & _ & _ & _).
  apply market_rate_positive in Hm.
  rewrite Hrate, Hrd, Hu.
  split; [exact Hm |].
  split; intros H; nra.
Qed.

Lemma revenue_sign_follows_yield_witness :
  match fst sample_display_run with
  | inr d =>
      0 < market_rate d /\
      (0 < revenue_diff d -> 4800 < user_yield d) /\
      (revenue_diff d < 0 -> user_yield d < 4800)
  | inl _ => False
  end.
Proof.
  destruct (fst sample_display_run) as [e | d] eqn:E.
  - vm_compute in E. discriminate.
  - apply (revenue_sign_follows_yield never_malformed sample_rules sample_rules
             (complete_result 800) (get_historical_prediction "Punjab" "Wheat")
             (inputs_of punjab_wheat) fresh d). exact E.
Defined.

(** The percent difference shown agrees with the other figures: it is the
    ratio shown minus one, in percent, and it never points the other way
    than the yield difference: it is positive only when the yield
    difference is, and negative only when the yield difference is. *)
Theorem percent_sign_follows_difference
    (malformed : value -> value -> bool) (crop_rules profit_rules : list (list rule))
    (prediction_result : value) (hr : historical_result) (inputs : value)
    (s : proc) (d : display) :
  fst (display_results malformed crop_rules profit_rules prediction_result hr inputs s)
    = inr d ->
  yield_diff_percent d == (yield_ratio d - 1) * 100 /\
  (0 < yield_diff_percent d -> 0 < yield_diff d) /\
  (yield_diff_percent d < 0 -> yield_diff d < 0).
Proof.
  intros Hrun.
  destruct (display_results_inr _ _ _ _ _ _ _ _ Hrun)
    as (u & c & key & m & r & t & p & _ & _ & _ & _ & _ & _ & _ & _ &
        _ & _ & _ & _ & _ & _ & Hratio & _ & Hyd & Hpct & _ & _ & _ & _).
  rewrite Hratio, Hpct, Hyd.
  destruct (gt (historical_yield hr) 0) eqn:Hgt.
  - apply gt_spec in Hgt.
    set (h := historical_yield hr) in *. clearbody h.
    split; [reflexivity |].
    split; intros H.
    + assert (Hq : 1 < u / h) by lra.
      apply gt_spec in Hq. rewrite (gt_quotient u h 1 Hgt) in Hq.
      apply gt_spec in Hq. lra.
    + destruct (Qlt_le_dec u h) as [Hlt | Hle]; [lra |].
      exfalso.
      assert (Hq : 1 <= u / h) by (apply Qle_shift_div_l; [exact Hgt | lra]).
      lra.
  - split; [reflexivity |].
    split; intros H; exfalso; revert H; apply Qlt_irrefl.
Qed.

Lemma percent_sign_follows_difference_witness :
  match fst sample_display_run with
  | inr d =>
      yield_diff_percent d == (yield_ratio d - 1) * 100 /\
      (0 < yield_diff_percent d -> 0 < yield_diff d) /\
      (yield_diff_percent d < 0 -> yield_diff d < 0)
  | inl _ => False
  end.
Proof.
  destruct (fst sample_display_run) as [e | d] eqn:E.
  - vm_compute in E. discriminate.
  - apply (percent_sign_follows_difference never_malformed sample_rules sample_rules
             (complete_result 800) (get_historical_prediction "Punjab" "Wheat")
             (inputs_of punjab_wheat) fresh d). exact E.
Defined.

Lemma valid_input_ranges (w : widgets) :
  valid_input w = true ->
  200 <= w_rainfall w <= 3000 /\ 15 <= w_temperature w <= 40 /\
  4 <= w_soil_ph w <= 9.
Proof.
  unfold valid_input, between. rewrite !andb_true_iff, !Qle_bool_iff. tauto.
Qed.

(** For inputs in the domain of the sidebar the three values of the
    conditions profile lie between 0 and 1, the range of its axis: the
    rainfall over 1500 capped at 1, the temperature over 40 and the soil pH
    over 10. *)
Theorem env_values_in_unit_interval
    (malformed : value -> value -> bool) (crop_rules profit_rules : list (list rule))
    (prediction_result : value) (hr : historical_result) (w : widgets)
    (s : proc) (d : display) :
  valid_input w = true ->
  fst (display_results malformed crop_rules profit_rules prediction_result hr
         (inputs_of w) s) = inr d ->
  env_values d
    = [min_of (w_rainfall w / 1500) 1; w_temperature w / 40; w_soil_ph w / 10] /\
  Forall in_unit_interval (env_values d).
Proof.
  intros Hvalid Hrun.
  destruct (valid_input_ranges w Hvalid) as ((Hr1 & Hr2) & (Ht1 & Ht2) & (Hp1 & Hp2)).
  destruct (display_results_inr _ _ _ _ _ _ _ _ Hrun)
    as (u & c & key & m & r & t & p & _ & _ & _ & _ & Hr & Ht & Hp & _ &
        _ & _ & _ & _ & _ & _ & _ & _ & _ & _ & _ & _ & Henv & _).
  cbn in Hr, Ht, Hp.
  injection Hr as <-. injection Ht as <-. injection Hp as <-.
  rewrite Henv. split; [reflexivity |].
  assert (H0 : 0 <= w_rainfall w / 1500)
    by (apply Qle_shift_div_l; [reflexivity | lra]).
  repeat constructor.
  - unfold min_of. destruct (gt (w_rainfall w / 1500) 1); [discriminate | exact H0].
  - unfold min_of. destruct (gt (w_rainfall w / 1500) 1) eqn:Hgt; [discriminate |].
    destruct (Qlt_le_dec 1 (w_rainfall w / 1500)) as [Hlt | Hle]; [| exact Hle].
    apply gt_spec in Hlt. congruence.
  - apply Qle_shift_div_l; [reflexivity | lra].
  - apply Qle_shift_div_r; [reflexivity | lra].
  - apply Qle_shift_div_l; [reflexivity | lra].
  - apply Qle_shift_div_r; [reflexivity | lra].
Qed.

Lemma env_values_in_unit_interval_witness :
  match fst sample_display_run with
  | inr d =>
      env_values d = [min_of (800 / 1500) 1; 25 / 40; 6.5 / 10] /\
      Forall in_unit_interval (env_values d)
  | inl _ => False
  end.
Proof.
  destruct (fst sample_display_run) as [e | d] eqn:E.
  - vm_compute in E. discriminate.
  - apply (env_values_in_unit_interval never_malformed sample_rules sample_rules
             (complete_result 800) (get_historical_prediction "Punjab" "Wheat")
             punjab_wheat fresh d); [reflexivity | exact E].
Defined.

(** [display_results] does not return for an incomplete result: when one of
    the six fields it reads (yield, confidence, factor importance, climate
    suitability, regional comparison, seasonal trends) cannot be read from
    the prediction result, the call raises. *)
Theorem display_results_needs_complete_result
    (malformed : value -> value -> bool) (crop_rules profit_rules : list (list rule))
    (prediction_result : value) (hr : historical_result) (inputs : value)
    (s : proc) (k : string) (e0 : exn) :
  k ∈ result_keys ->
  getitem prediction_result k = inl e0 ->
  exists e,
    fst (display_results malformed crop_rules profit_rules prediction_result hr inputs s)
      = inl e.
Proof.
  intros Hk Hmissing.
  destruct (fst (display_results malformed crop_rules profit_rules
                   prediction_result hr inputs s)) as [e | d] eqn:Hrun.
  - exists e. reflexivity.
  - destruct (display_results_inr _ _ _ _ _ _ _ _ Hrun)
      as (u & c & key & m & r & t & p & _ & _ & _ & _ & _ & _ & _ & Hkeys & _).
    destruct (Hkeys k Hk) as [v Hv]. congruence.
Qed.

Lemma display_results_needs_complete_result_witness :
  exists e,
    fst (display_results never_malformed sample_rules sample_rules
           (VDict [("yield", VNum 3200); ("confidence", VNum 90)])
           (get_historical_prediction "Punjab" "Wheat")
           (inputs_of punjab_wheat) fresh) = inl e.
Proof.
  apply (display_results_needs_complete_result never_malformed sample_rules
           sample_rules _ _ _ fresh "seasonal_trends" KeyError).
  - unfold result_keys. set_solver.
  - reflexivity.
Defined.

(** ** A pressed run, end to end *)

(** When a run with the button pressed shows results, they are the
    artifact's first prediction for the inputs of the sidebar set against
    the historical reference of the chosen state and crop: the reference is
    positive, so the ratio shown is the true quotient of the two yields (the
    fallback of 1 is never taken), and the market rate is the one of the
    chosen crop, 25 for a crop without a rate. *)
Theorem pressed_run_shows_prediction
    (malformed : value -> value -> bool) (crop_rules profit_rules : list (list rule))
    (fs : gmap string file) (w : widgets) (s s1 : proc) (m : pyobj) (d : display) :
  initialize_model fs s = (inr m, s1) ->
  predict_button w = true ->
  fst (main malformed crop_rules profit_rules fs w s) = inr (results_shown d) ->
  (exists predict out r,
     m = Estimator predict /\
     predict (features_row w) = inr out /\
     getitem0 out = inr r /\
     getitem r "yield" = inr (VNum (user_yield d))) /\
  shown_historical_yield d
    = historical_yield (get_historical_prediction (w_state w) (w_crop_type w)) /\
  0 < shown_historical_yield d /\
  yield_ratio d = user_yield d / shown_historical_yield d /\
  market_rate d = dict_get crop_market_rates (w_crop_type w) 25.
Proof.
  intros Hinit Hb Hmain.
  rewrite (main_after_load _ _ _ _ w _ _ _ Hinit) in Hmain.
  destruct (is_None m); [discriminate |].
  destruct m as [v | predict].
  { rewrite (predict_and_store_no_estimator _ _ _ Hb) in Hmain. discriminate. }
  rewrite (predict_and_store_pressed _ _ _ Hb) in Hmain. cbv zeta in Hmain.
  destruct (predict (features_row w)) as [e | out] eqn:Hp; [discriminate |].
  destruct (getitem0 out) as [e | r] eqn:Hout; [discriminate |].
  destruct (value_is_None r); [discriminate |].
  unfold show_stored in Hmain. unfold bind at 1 in Hmain.
  cbn [get_session with_session session_state] in Hmain.
  apply bind_inr in Hmain. destruct Hmain as (d0 & s3 & Hrun & Hret).
  injection Hret as ->.
  assert (Hrun' : fst (display_results malformed crop_rules profit_rules r
                         (get_historical_prediction (w_state w) (w_crop_type w))
                         (inputs_of w)
                         (with_session
                            (with_trace s1 (trace s1 ++ [EPredict (features_row w)]))
                            (stored_session w r))) = inr d)
    by (cbn [stored_session ss_prediction_result ss_historical_result ss_inputs] in Hrun;
        rewrite Hrun; reflexivity).
  destruct (display_results_inr _ _ _ _ _ _ _ _ Hrun')
    as (u & c & key & rate & rain & t & p & Hy & _ & Hkey & Hrate & _ & _ & _ & _ &
        Hu & Hh & _ & Hm & _ & _ & Hratio & _).
  pose proof (resolved_yield_positive _ _ _
                (historical_yield_resolves (w_state w) (w_crop_type w))) as Hpos.
  cbn in Hkey. injection Hkey as <-. cbn in Hrate. injection Hrate as <-.
  rewrite (proj2 (gt_spec _ 0) Hpos) in Hratio.
  split; [exists predict, out, r; subst u; auto |].
  rewrite Hh, Hratio, Hu, Hm. auto.
Qed.

Lemma pressed_run_shows_prediction_witness :
  match fst (main never_malformed sample_rules sample_rules disk_with_artifact
               punjab_wheat fresh) with
  | inr (results_shown d) =>
      (exists predict out r,
         complete_artifact = Estimator predict /\
         predict (features_row punjab_wheat) = inr out /\
         getitem0 out = inr r /\
         getitem r "yield" = inr (VNum (user_yield d))) /\
      shown_historical_yield d
        = historical_yield (get_historical_prediction "Punjab" "Wheat") /\
      0 < shown_historical_yield d /\
      yield_ratio d = user_yield d / shown_historical_yield d /\
      market_rate d = dict_get crop_market_rates "Wheat" 25
  | _ => False
  end.
Proof.
  destruct (fst (main never_malformed sample_rules sample_rules disk_with_artifact
                   punjab_wheat fresh)) as [e | [| | | d]] eqn:E;
    try (vm_compute in E; discriminate).
  apply (pressed_run_shows_prediction never_malformed sample_rules sample_rules
           disk_with_artifact punjab_wheat fresh
           (with_cache fresh complete_artifact) complete_artifact d);
    [reflexivity | reflexivity | exact E].
Defined.
